(** * Purchase-price derivation engine of kursi-prices

    A shallow embedding of [src/price_calculator.py]: the exchange-rate
    resolution of [PriceCalculator.__init__], the lookup [_get_price], the
    nine [calc_*] strategies and [calculate_all].

    Conventions of the embedding.
    - A snapshot is what [json.load] returns: a value of [pyval].  Python's
      [int] and [float] are kept apart ([PInt], [PFloat]) because [*] treats
      them differently on strings and lists.
    - A Python [float] is idealised as an exact rational ([Q]): binary64
      rounding, overflow, infinities and NaN are outside the model, and so
      are integers too large to convert to a float ([int_converts]).  Decimal
      literals of the source ([1.13], [0.6], ...) denote their decimal value.
      An order between two results is stated weakly, which rounding
      preserves, and strictly only on worked examples whose binary64
      evaluation is checked beside them; the statement that [calculate_all]
      returns asks for integers that convert.
    - A call that may raise returns [res]: [Ok v] or [Raise e].
    - [print] diagnostics are not part of any returned value and are left out.
    - [float()] of a [str] and the wall clock belong to the Python runtime;
      they are variables of the section that holds the engine. *)

From Stdlib Require Import ZArith QArith Qround Lqa Lia String Ascii List Floats.
From stdpp Require Import base option gmap strings.

Local Open Scope string_scope.
Local Open Scope Z_scope.

(** ** Python values and exceptions *)

(* No recursion over [pyval] is needed: the engine inspects a snapshot to a
   fixed depth. *)
#[local] Unset Elimination Schemes.
Inductive pyval : Type :=
  | PNone
  | PBool (b : bool)
  | PInt (z : Z)
  | PFloat (q : Q)
  | PStr (s : string)
  | PList (l : list pyval)
  | PDict (d : gmap string pyval).
#[local] Set Elimination Schemes.

Inductive exn : Type := AttributeError | TypeError | ValueError.

Inductive res (A : Type) : Type :=
  | Ok (a : A)
  | Raise (e : exn).
Arguments Ok {A} a.
Arguments Raise {A} e.

#[global] Instance res_ret : MRet res := fun _ a => Ok a.
#[global] Instance res_bind : MBind res := fun _ _ f m =>
  match m with
  | Ok a => f a
  | Raise e => Raise e
  end.

(** [bool(v)]: Python's truth value of a JSON value. *)
Definition truthy (v : pyval) : bool :=
  match v with
  | PNone => false
  | PBool b => b
  | PInt z => negb (z =? 0)
  | PFloat q => negb (Qeq_bool q 0)
  | PStr s => negb (String.eqb s "")
  | PList l => match l with [] => false | _ => true end
  | PDict d => negb (bool_decide (d = ∅))
  end.

(** [a or b]. *)
Definition py_or (a b : pyval) : pyval := if truthy a then a else b.

(** [v is not None]. *)
Definition is_not_None (v : pyval) : bool :=
  match v with PNone => false | _ => true end.

(** [v != 0]: numbers (and booleans, which are integers) compare by value;
    a value of any other type differs from [0]. *)
Definition py_ne0 (v : pyval) : bool :=
  match v with
  | PBool b => b
  | PInt z => negb (z =? 0)
  | PFloat q => negb (Qeq_bool q 0)
  | _ => true
  end.

(** [d.get(k)] and [d.get(k, default)] on a dict. *)
Definition dict_get (d : gmap string pyval) (k : string) : pyval :=
  default PNone (d !! k).
Definition dict_get_or (d : gmap string pyval) (k : string) (dflt : pyval) : pyval :=
  default dflt (d !! k).

(** [recv.get(k, default)] on an arbitrary receiver: only a dict has [get]. *)
Definition py_get (recv : pyval) (k : string) (dflt : pyval) : res pyval :=
  match recv with
  | PDict d => Ok (dict_get_or d k dflt)
  | _ => Raise AttributeError
  end.

(** The integer a [bool] stands for. *)
Definition Z_of_bool (b : bool) : Z := if b then 1 else 0.

(** [s * n] and [l * n]: repetition, empty when [n <= 0]. *)
Fixpoint str_repeat (s : string) (n : nat) : string :=
  match n with
  | O => ""
  | S n' => s ++ str_repeat s n'
  end.
Fixpoint list_repeat (l : list pyval) (n : nat) : list pyval :=
  match n with
  | O => []
  | S n' => l ++ list_repeat l n'
  end.

(** [a * b] on JSON values. *)
Definition py_mul (a b : pyval) : res pyval :=
  match a, b with
  | PInt x, PInt y => Ok (PInt (x * y))
  | PInt x, PBool y => Ok (PInt (x * Z_of_bool y))
  | PBool x, PInt y => Ok (PInt (Z_of_bool x * y))
  | PBool x, PBool y => Ok (PInt (Z_of_bool x * Z_of_bool y))
  | PInt x, PFloat y => Ok (PFloat (inject_Z x * y))
  | PBool x, PFloat y => Ok (PFloat (inject_Z (Z_of_bool x) * y))
  | PFloat x, PInt y => Ok (PFloat (x * inject_Z y))
  | PFloat x, PBool y => Ok (PFloat (x * inject_Z (Z_of_bool y)))
  | PFloat x, PFloat y => Ok (PFloat (x * y))
  | PInt n, PStr s | PStr s, PInt n => Ok (PStr (str_repeat s (Z.to_nat n)))
  | PBool n, PStr s | PStr s, PBool n => Ok (PStr (str_repeat s (Z.to_nat (Z_of_bool n))))
  | PInt n, PList l | PList l, PInt n => Ok (PList (list_repeat l (Z.to_nat n)))
  | PBool n, PList l | PList l, PBool n => Ok (PList (list_repeat l (Z.to_nat (Z_of_bool n))))
  | _, _ => Raise TypeError
  end.

(** [x * v] where [x] is a float: the product is a float, or [TypeError].
    Python converts an [int] operand to a float first and raises
    [OverflowError] when it is beyond the range of binary64; integers of that
    size are outside the model ([int_converts] below delimits them). *)
Definition py_float_mul (x : Q) (v : pyval) : res Q :=
  match v with
  | PInt z => Ok (x * inject_Z z)%Q
  | PFloat q => Ok (x * q)%Q
  | PBool b => Ok (x * inject_Z (Z_of_bool b))%Q
  | _ => Raise TypeError
  end.

(** [round(x, 0)]: to the nearest whole number, ties to the even one. *)
Definition py_round0 (x : Q) : Z :=
  let f := Qfloor x in
  let r := (x - inject_Z f)%Q in
  match (r ?= 1 # 2)%Q with
  | Lt => f
  | Gt => f + 1
  | Eq => if Z.even f then f else f + 1
  end.

(** ** Module-level parameters of [price_calculator.py] *)

Definition VAT_RATE : Q := 113 # 100.
Definition CNY_NGN_OVERRIDE : option pyval := Some (PInt 216).
Definition LOGISTICS_COST_SEA : Q := 80309.
Definition COLTAN_AIR_COST : Q := 8.
Definition SPODUMENE_DISCOUNT : Q := 6 # 10.
Definition LEPIDOLITE_DISCOUNT : Q := 3 # 10.
Definition LEPIDOLITE_TONS_PER_CARBONATE : Q := 20.
Definition LEPIDOLITE_PROCESSING_COST_CNY : Q := 45000.
Definition LEPIDOLITE_BASE_GRADE : Q := 25 # 10.

(** ** The calculator object *)

Record PriceCalculator : Type := {
  price_data : pyval;
  date : pyval;
  USD_NGN : pyval;
  USD_CNY : pyval;
  CNY_NGN : pyval;
  CNY_NGN_SOURCE : string;
  smm : pyval
}.

(** [x.get("rate", dflt) if isinstance(x, dict) else x]. *)
Definition rate_of (x dflt : pyval) : pyval :=
  match x with
  | PDict d => dict_get_or d "rate" dflt
  | _ => x
  end.

(** The rows of the result of [calculate_all]. *)
Record GradeTable : Type := {
  unit : string;
  base_grade : string;
  note : option string;
  grades : list (string * Z)
}.

Record Parameters : Type := {
  vat_rate : Q;
  logistics_cost_sea_ngn : Q;
  coltan_air_cost_usd : Q;
  spodumene_discount : Q;
  lepidolite_discount : Q
}.

Record ResolvedRates : Type := {
  usd_ngn : pyval;
  usd_cny : pyval;
  cny_ngn : pyval;
  cny_ngn_source : string
}.

Record SourcePrice : Type := {
  price : option Q;
  price_unit : string
}.

Record Result : Type := {
  result_date : pyval;
  calculation_time : string;
  exchange_rates : ResolvedRates;
  parameters : Parameters;
  source_prices : list (string * SourcePrice);
  max_purchase_prices : list (string * GradeTable)
}.

Section Engine.

(** [float(s)] for a [str]: the value of the float it parses to, or
    [ValueError]. *)
Variable float_of_str : string -> res Q.
(** [datetime.now()] formatted as a date and as a time stamp. *)
Variable today : string.
Variable now : string.

(** [float(v)].  For an [int] beyond the range of binary64 Python raises
    [OverflowError]; integers of that size are outside the model. *)
Definition py_float (v : pyval) : res Q :=
  match v with
  | PInt z => Ok (inject_Z z)
  | PFloat q => Ok q
  | PBool b => Ok (inject_Z (Z_of_bool b))
  | PStr s => float_of_str s
  | PNone | PList _ | PDict _ => Raise TypeError
  end.

(** *** [PriceCalculator.__init__] *)

(** The constructor, with the module constant [CNY_NGN_OVERRIDE] as a
    parameter so that both branches of the override test are covered. *)
Definition init_with (override : option pyval) (pd : pyval) : res PriceCalculator :=
  d ← py_get pd "date" (PStr today);
  rates ← py_get pd "exchange_rates" (PDict ∅);
  usd_ngn_raw ← py_get rates "usd_ngn" (PDict ∅);
  usd_cny_raw ← py_get rates "usd_cny" (PDict ∅);
  cny_ngn_raw ← py_get rates "cny_ngn" (PDict ∅);
  let usd_ngn0 := rate_of usd_ngn_raw (PInt 1487) in
  let usd_cny0 := rate_of usd_cny_raw (PFloat 7) in
  let '(cny_ngn0, source) :=
    match override with
    | Some o => (o, "Manual Override")
    | None => (rate_of cny_ngn_raw (PFloat (21235 # 100)), "Auto")
    end in
  usd_ngn1 ← py_mul cny_ngn0 usd_cny0;
  s ← py_get pd "smm_prices" (PDict ∅);
  mret {| price_data := pd; date := d;
          USD_NGN := usd_ngn1; USD_CNY := usd_cny0; CNY_NGN := cny_ngn0;
          CNY_NGN_SOURCE := source; smm := s |}.

Definition init : pyval -> res PriceCalculator := init_with CNY_NGN_OVERRIDE.

(** *** [PriceCalculator._get_price] *)

(** One attempt on the record stored under [key]:
    [None] when the code falls through to the next candidate,
    [Some r] when it returns [r] at once. *)
Definition try_key (s : gmap string pyval) (key field : string)
  : option (res (option Q)) :=
  match dict_get_or s key (PDict ∅) with
  | PDict data =>
      let p := py_or (dict_get data field) (dict_get data "price") in
      if is_not_None p then
        Some (if py_ne0 p then x ← py_float p; mret (Some x) else mret None)
      else None
  | _ => None
  end.

(** The loop over [fallback_keys]. *)
Fixpoint try_fallbacks (s : gmap string pyval) (field : string)
    (fallback_keys : list string) : res (option Q) :=
  match fallback_keys with
  | [] => mret None
  | k :: ks =>
      match try_key s k field with
      | Some r => r
      | None => try_fallbacks s field ks
      end
  end.

Definition _get_price (self : PriceCalculator) (key field : string)
    (fallback_keys : list string) : res (option Q) :=
  match smm self with
  | PDict s =>
      match try_key s key field with
      | Some r => r
      | None => try_fallbacks s field fallback_keys
      end
  | _ => Raise AttributeError
  end.

(** The call with the default arguments [field="price_avg"],
    [fallback_keys=None]. *)
Definition get_price_default (self : PriceCalculator) (key : string)
  : res (option Q) :=
  _get_price self key "price_avg" [].

(** [not p] for an [Optional[float]]. *)
Definition not_price (p : option Q) : bool :=
  match p with
  | None => true
  | Some x => Qeq_bool x 0
  end.

(** [if not p: return 0], then the rest of the strategy on the price. *)
Definition with_price (p : option Q) (k : Q -> res Q) : res Q :=
  if not_price p then mret 0%Q else k (default 0%Q p).

(** *** The pricing strategies *)

Definition calc_tin_ore (self : PriceCalculator) (grade_percent : Q) : res Q :=
  metal_price_usd ← get_price_default self "tin";
  with_price metal_price_usd (fun metal_price_usd =>
    let china_price_usd := (metal_price_usd * (grade_percent / 100))%Q in
    china_price_ngn ← py_float_mul china_price_usd (USD_NGN self);
    let fob_price_ngn := (china_price_ngn - LOGISTICS_COST_SEA)%Q in
    let max_price_ngn_per_ton := (fob_price_ngn / VAT_RATE)%Q in
    mret (max_price_ngn_per_ton / 1000)%Q).

Definition calc_coltan (self : PriceCalculator) (grade_percent : Q) : res Q :=
  ta2o5_price_usd_kg ← get_price_default self "tantalum_oxide";
  with_price ta2o5_price_usd_kg (fun ta2o5_price_usd_kg =>
    unit_price_per_grade ←
      py_float_mul ((ta2o5_price_usd_kg - COLTAN_AIR_COST) / VAT_RATE / 100)%Q
                   (USD_NGN self);
    mret (grade_percent * unit_price_per_grade)%Q).

Definition calc_monazite (self : PriceCalculator) (grade_percent : Q) : res Q :=
  smm_price_usd_ton ←
    _get_price self "monazite_concentrate" "price_avg"
               ["monazite"; "monazite_concentrate"];
  with_price smm_price_usd_ton (fun smm_price_usd_ton =>
    let BASE_GRADE := 60%Q in
    price_ngn ← py_float_mul smm_price_usd_ton (USD_NGN self);
    let china_price_ngn := (price_ngn * (grade_percent / BASE_GRADE))%Q in
    let fob_price_ngn := (china_price_ngn - LOGISTICS_COST_SEA)%Q in
    if Qle_bool fob_price_ngn 0 then mret 0%Q
    else
      let max_price_ngn_per_ton := (fob_price_ngn / VAT_RATE)%Q in
      mret (max_price_ngn_per_ton / 1000)%Q).

Definition calc_titanium (self : PriceCalculator) : res Q :=
  smm_price_cny_ton ← get_price_default self "titanium_concentrate";
  with_price smm_price_cny_ton (fun smm_price_cny_ton =>
    china_price_ngn ← py_float_mul smm_price_cny_ton (CNY_NGN self);
    let fob_price_ngn := (china_price_ngn - LOGISTICS_COST_SEA)%Q in
    mret (fob_price_ngn / VAT_RATE)%Q).

Definition calc_zircon (self : PriceCalculator) : res Q :=
  smm_price_usd_ton ← get_price_default self "zircon_sand";
  with_price smm_price_usd_ton (fun smm_price_usd_ton =>
    china_price_ngn ← py_float_mul smm_price_usd_ton (USD_NGN self);
    let fob_price_ngn := (china_price_ngn - LOGISTICS_COST_SEA)%Q in
    mret (fob_price_ngn / VAT_RATE)%Q).

Definition calc_spodumene (self : PriceCalculator) (grade_percent : Q) : res Q :=
  smm_price_usd_ton ← get_price_default self "spodumene";
  with_price smm_price_usd_ton (fun smm_price_usd_ton =>
    let BASE_GRADE := 6%Q in
    price_ngn ← py_float_mul smm_price_usd_ton (USD_NGN self);
    let china_price_ngn := (price_ngn * (grade_percent / BASE_GRADE))%Q in
    let fob_price_ngn := (china_price_ngn - LOGISTICS_COST_SEA)%Q in
    let max_price_ngn_per_ton := (fob_price_ngn / VAT_RATE)%Q in
    mret (max_price_ngn_per_ton * SPODUMENE_DISCOUNT)%Q).

Definition calc_lepidolite (self : PriceCalculator) (grade_percent : Q) : res Q :=
  carbonate_price_usd ← get_price_default self "lithium_carbonate";
  with_price carbonate_price_usd (fun carbonate_price_usd =>
    carbonate_price_cny ← py_float_mul carbonate_price_usd (USD_CNY self);
    let lepidolite_price_cny :=
      ((carbonate_price_cny - LEPIDOLITE_PROCESSING_COST_CNY)
       / LEPIDOLITE_TONS_PER_CARBONATE
       * (grade_percent / LEPIDOLITE_BASE_GRADE))%Q in
    china_price_ngn ← py_float_mul lepidolite_price_cny (CNY_NGN self);
    let fob_price_ngn := (china_price_ngn - LOGISTICS_COST_SEA)%Q in
    let max_price_ngn_per_ton := (fob_price_ngn / VAT_RATE)%Q in
    mret (max_price_ngn_per_ton * LEPIDOLITE_DISCOUNT)%Q).

Definition calc_lead_ore (self : PriceCalculator) (grade_percent : Q) : res Q :=
  metal_price_usd ← get_price_default self "lead";
  with_price metal_price_usd (fun metal_price_usd =>
    let china_price_usd := (metal_price_usd * (grade_percent / 100))%Q in
    china_price_ngn ← py_float_mul china_price_usd (USD_NGN self);
    let fob_price_ngn := (china_price_ngn - LOGISTICS_COST_SEA)%Q in
    mret (fob_price_ngn / VAT_RATE)%Q).

Definition calc_zinc_ore (self : PriceCalculator) (grade_percent : Q) : res Q :=
  metal_price_usd ← get_price_default self "zinc";
  with_price metal_price_usd (fun metal_price_usd =>
    let china_price_usd := (metal_price_usd * (grade_percent / 100))%Q in
    china_price_ngn ← py_float_mul china_price_usd (USD_NGN self);
    let fob_price_ngn := (china_price_ngn - LOGISTICS_COST_SEA)%Q in
    mret (fob_price_ngn / VAT_RATE)%Q).

(** *** [PriceCalculator.calculate_all] *)

(** The ["grades"] dict of one commodity: [label: round(calc(grade), 0)]
    for each configured grade, evaluated in the order written. *)
Fixpoint grade_rows (calc : Q -> res Q) (gs : list (string * Q))
  : res (list (string * Z)) :=
  match gs with
  | [] => mret []
  | (label, g) :: gs' =>
      x ← calc g;
      rest ← grade_rows calc gs';
      mret ((label, py_round0 x) :: rest)
  end.

Definition tin_grades : list (string * Q) :=
  [("60%", 60); ("65%", 65); ("70%", 70); ("75%", 75)]%Q.
Definition coltan_grades : list (string * Q) :=
  [("20%", 20); ("25%", 25); ("30%", 30); ("35%", 35)]%Q.
Definition monazite_grades : list (string * Q) :=
  [("30%", 30); ("40%", 40); ("45%", 45); ("50%", 50); ("60%", 60)]%Q.
Definition spodumene_grades : list (string * Q) :=
  [("3%", 3); ("4%", 4); ("5%", 5); ("6%", 6)]%Q.
Definition lepidolite_grades : list (string * Q) :=
  [("2.0%", 2); ("2.5%", 25 # 10); ("3.0%", 3)]%Q.
Definition lead_grades : list (string * Q) :=
  [("40%", 40); ("50%", 50); ("60%", 60)]%Q.
Definition zinc_grades : list (string * Q) :=
  [("40%", 40); ("50%", 50); ("60%", 60)]%Q.

Definition calculate_all (self : PriceCalculator) : res Result :=
  sp_tin ← get_price_default self "tin";
  sp_tantalum ← get_price_default self "tantalum_oxide";
  sp_monazite ← get_price_default self "monazite_concentrate";
  sp_titanium ← get_price_default self "titanium_concentrate";
  sp_zircon ← get_price_default self "zircon_sand";
  sp_spodumene ← get_price_default self "spodumene";
  sp_carbonate ← get_price_default self "lithium_carbonate";
  sp_lead ← get_price_default self "lead";
  sp_zinc ← get_price_default self "zinc";
  tin ← grade_rows (calc_tin_ore self) tin_grades;
  coltan ← grade_rows (calc_coltan self) coltan_grades;
  monazite ← grade_rows (calc_monazite self) monazite_grades;
  titanium ← grade_rows (fun _ => calc_titanium self) [("50%", 50%Q)];
  zircon ← grade_rows (fun _ => calc_zircon self) [("65%", 65%Q)];
  spodumene ← grade_rows (calc_spodumene self) spodumene_grades;
  lepidolite ← grade_rows (calc_lepidolite self) lepidolite_grades;
  lead ← grade_rows (calc_lead_ore self) lead_grades;
  zinc ← grade_rows (calc_zinc_ore self) zinc_grades;
  mret {|
    result_date := date self;
    calculation_time := now;
    exchange_rates := {| usd_ngn := USD_NGN self; usd_cny := USD_CNY self;
                         cny_ngn := CNY_NGN self;
                         cny_ngn_source := CNY_NGN_SOURCE self |};
    parameters := {| vat_rate := VAT_RATE;
                     logistics_cost_sea_ngn := LOGISTICS_COST_SEA;
                     coltan_air_cost_usd := COLTAN_AIR_COST;
                     spodumene_discount := SPODUMENE_DISCOUNT;
                     lepidolite_discount := LEPIDOLITE_DISCOUNT |};
    source_prices :=
      [("tin", {| price := sp_tin; price_unit := "USD/mt" |});
       ("tantalum_oxide", {| price := sp_tantalum; price_unit := "USD/kg" |});
       ("monazite", {| price := sp_monazite; price_unit := "USD/mt" |});
       ("titanium", {| price := sp_titanium; price_unit := "CNY/mt" |});
       ("zircon", {| price := sp_zircon; price_unit := "USD/mt" |});
       ("spodumene", {| price := sp_spodumene; price_unit := "USD/mt" |});
       ("lithium_carbonate", {| price := sp_carbonate; price_unit := "USD/mt" |});
       ("lead", {| price := sp_lead; price_unit := "USD/mt" |});
       ("zinc", {| price := sp_zinc; price_unit := "USD/mt" |})];
    max_purchase_prices :=
      [("tin_ore", {| unit := "NGN/kg"; base_grade := "70%"; note := None;
                      grades := tin |});
       ("coltan", {| unit := "NGN/kg"; base_grade := "30% Ta₂O₅";
                     note := Some "Air freight"; grades := coltan |});
       ("monazite", {| unit := "NGN/kg"; base_grade := "60% TREO"; note := None;
                       grades := monazite |});
       ("titanium", {| unit := "NGN/ton"; base_grade := "≥50% TiO₂"; note := None;
                       grades := titanium |});
       ("zircon", {| unit := "NGN/ton"; base_grade := "≥65% Zr(Hf)O₂";
                     note := None; grades := zircon |});
       ("spodumene", {| unit := "NGN/ton"; base_grade := "6% Li₂O"; note := None;
                        grades := spodumene |});
       ("lepidolite", {| unit := "NGN/ton"; base_grade := "2.5% Li₂O";
                         note := None; grades := lepidolite |});
       ("lead_ore", {| unit := "NGN/ton"; base_grade := "50% Pb"; note := None;
                       grades := lead |});
       ("zinc_ore", {| unit := "NGN/ton"; base_grade := "50% Zn"; note := None;
                       grades := zinc |})]
  |}.

End Engine.

(** ** Readings used in the statements *)

(** The number a resolved rate denotes, when it is one. *)
Definition as_float (v : pyval) : option Q :=
  match v with
  | PInt z => Some (inject_Z z)
  | PFloat q => Some q
  | PBool b => Some (inject_Z (Z_of_bool b))
  | _ => None
  end.

(** The resolved exchange rates of a constructed calculator. *)
Definition rates_of (r : res PriceCalculator) : res ResolvedRates :=
  c ← r;
  mret {| usd_ngn := USD_NGN c; usd_cny := USD_CNY c; cny_ngn := CNY_NGN c;
          cny_ngn_source := CNY_NGN_SOURCE c |}.

(** Strict order between two results that both returned. *)
Definition lt_res (a b : res Q) : Prop :=
  match a, b with
  | Ok x, Ok y => (x < y)%Q
  | _, _ => False
  end.

(** Weak order between two results that both returned. *)
Definition le_res (a b : res Q) : Prop :=
  match a, b with
  | Ok x, Ok y => (x <= y)%Q
  | _, _ => False
  end.

(** A price or a rate of moderate size: not negative and at most a googol.
    At such sizes an integer converts to a float and no product that a
    strategy forms leaves the range of binary64, so that the arithmetic of
    the program neither raises nor yields an infinity. *)
Definition googol : Q := inject_Z (10 ^ 100).
Definition moderate (x : Q) : Prop := (0 <= x)%Q /\ (x <= googol)%Q.

(** A snapshot with the given raw [usd_cny] entry and [smm_prices] records. *)
Definition snapshot (usd_cny_raw : pyval) (prices : gmap string pyval) : pyval :=
  PDict (<[ "exchange_rates" := PDict {[ "usd_cny" := usd_cny_raw ]} ]>
         {[ "smm_prices" := PDict prices ]}).

(** A price record [{"price_avg": v}]. *)
Definition avg (v : pyval) : pyval := PDict {[ "price_avg" := v ]}.

(** The worked examples of the specification: tin at 30,000 USD/mt and
    tantalum oxide at 65 USD/kg, with USD/CNY = 7.504. *)
Definition example_snapshot : pyval :=
  snapshot (PFloat (7504 # 1000))
           (<[ "tin" := avg (PInt 30000) ]> {[ "tantalum_oxide" := avg (PInt 65) ]}).

(** A runtime in which no string parses as a float; the examples hold no
    string-valued price. *)
Definition no_str_float : string -> res Q := fun _ => Raise ValueError.

(** [d[k]] on a result dict, kept in insertion order. *)
Fixpoint assoc {A : Type} (k : string) (d : list (string * A)) : option A :=
  match d with
  | [] => None
  | (k', v) :: d' => if String.eqb k k' then Some v else assoc k d'
  end.

(** [results["max_purchase_prices"][commodity]["grades"][label]]. *)
Definition grade_price (r : Result) (commodity label : string) : option Z :=
  t ← assoc commodity (max_purchase_prices r);
  assoc label (grades t).

(** Reference prices too low to cover the sea-logistics cost:
    10 USD/mt for monazite, spodumene and lithium carbonate, USD/CNY = 7. *)
Definition low_price_snapshot : pyval :=
  snapshot (PInt 7)
           (<[ "monazite" := avg (PInt 10) ]>
            (<[ "spodumene" := avg (PInt 10) ]>
             {[ "lithium_carbonate" := avg (PInt 10) ]})).

(** ** The lookup as the specification words it

    "Tries the primary key's record for [field], then for a generic
    ["price"] field, treating [0] as absent.  On miss, iterates fallback
    keys in order, applying the same two-field attempt to each, stopping at
    the first hit."  This definition follows those sentences, not the code. *)

(** A present, non-zero number. *)
Definition usable_value (v : pyval) : option Q :=
  match v with
  | PInt z => if z =? 0 then None else Some (inject_Z z)
  | PFloat q => if Qeq_bool q 0 then None else Some q
  | _ => None
  end.

(** The two-field attempt on one key. *)
Definition attempt_spec (s : gmap string pyval) (field key : string) : option Q :=
  match s !! key with
  | Some (PDict data) =>
      match usable_value (dict_get data field) with
      | Some x => Some x
      | None => usable_value (dict_get data "price")
      end
  | _ => None
  end.

Fixpoint first_hit_spec (s : gmap string pyval) (field : string)
    (keys : list string) : option Q :=
  match keys with
  | [] => None
  | k :: ks =>
      match attempt_spec s field k with
      | Some x => Some x
      | None => first_hit_spec s field ks
      end
  end.

Definition lookup_spec (s : gmap string pyval) (key field : string)
    (fallback_keys : list string) : option Q :=
  first_hit_spec s field (key :: fallback_keys).

(** The value one attempt of the code selects: [data.get(field) or
    data.get("price")], or [None] for a record that is not a mapping. *)
Definition selected (s : gmap string pyval) (field key : string) : pyval :=
  match dict_get_or s key (PDict ∅) with
  | PDict data => py_or (dict_get data field) (dict_get data "price")
  | _ => PNone
  end.

(** The attempt selects nothing, or a non-zero number. *)
Definition clean_attempt (s : gmap string pyval) (field key : string) : Prop :=
  selected s field key = PNone \/
  exists x, usable_value (selected s field key) = Some x.



(** Monazite quoted at zero under its primary key and at 7,504.35 USD/mt
    under its first fallback key. *)
Definition zero_price_snapshot : pyval :=
  snapshot (PInt 7)
           (<[ "monazite_concentrate" := PDict {[ "price" := PInt 0 ]} ]>
            {[ "monazite" := avg (PFloat (750435 # 100)) ]}).

(** The same quotes with the zero stored under [price_avg] instead. *)
Definition zero_avg_snapshot : pyval :=
  snapshot (PInt 7)
           (<[ "monazite_concentrate" := avg (PInt 0) ]>
            {[ "monazite" := avg (PFloat (750435 # 100)) ]}).

(** ** Snapshots on which [calculate_all] returns *)

(** [float(n)] of an [int], and [x * n] for a float [x], return when [n]
    rounds to a finite binary64 value, that is when its magnitude is below
    [2^1024 - 2^970]; from there on Python raises [OverflowError]. *)
Definition int_converts (z : Z) : bool := Z.abs z <? 2 ^ 1024 - 2 ^ 970.

(** A number a float can be multiplied by: a float, a boolean, or an
    integer that converts. *)
Definition binary64_number (v : pyval) : bool :=
  match v with
  | PInt z => int_converts z
  | PFloat _ | PBool _ => true
  | _ => false
  end.

(** The value that decides a lookup over [keys]: the first selected value
    that is not [None], or [None] when every candidate selects [None]. *)
Fixpoint first_selected (s : gmap string pyval) (field : string)
    (keys : list string) : pyval :=
  match keys with
  | [] => PNone
  | k :: ks =>
      if is_not_None (selected s field k) then selected s field k
      else first_selected s field ks
  end.

(** What [_get_price] makes of the value that decides it:
    [float(price) if price != 0 else None], or [None] when there is none. *)
Definition decided (float_of_str : string -> res Q) (v : pyval) : res (option Q) :=
  if is_not_None v
  then (if py_ne0 v then x ← py_float float_of_str v; mret (Some x) else mret None)
  else mret None.

(** A strategy returns on the value [v] that decides its lookup and the
    rates it multiplies by: when nothing was selected; when [v] is a zero;
    and when [float] converts [v] and either the price is zero or every
    rate is a number. *)
Definition strategy_returns (float_of_str : string -> res Q) (v : pyval)
    (rates : list pyval) : bool :=
  match v with
  | PNone => true
  | PStr str =>
      match float_of_str str with
      | Ok x => Qeq_bool x 0 || forallb binary64_number rates
      | Raise _ => false
      end
  | _ => negb (py_ne0 v) || (binary64_number v && forallb binary64_number rates)
  end.

(** The candidate keys of the lookup of each strategy, in the order tried,
    and the rates the strategy multiplies by; [calculate_all] calls the
    strategies in this order. *)
Definition strategy_inputs (self : PriceCalculator) : list (list string * list pyval) :=
  [(["tin"], [USD_NGN self]);
   (["tantalum_oxide"], [USD_NGN self]);
   (["monazite_concentrate"; "monazite"; "monazite_concentrate"], [USD_NGN self]);
   (["titanium_concentrate"], [CNY_NGN self]);
   (["zircon_sand"], [USD_NGN self]);
   (["spodumene"], [USD_NGN self]);
   (["lithium_carbonate"], [USD_CNY self; CNY_NGN self]);
   (["lead"], [USD_NGN self]);
   (["zinc"], [USD_NGN self])].

(** [smm] is a mapping and every strategy returns on it. *)
Definition well_shaped (float_of_str : string -> res Q) (self : PriceCalculator) : bool :=
  match smm self with
  | PDict s =>
      forallb (fun kr => strategy_returns float_of_str
                           (first_selected s "price_avg" (fst kr)) (snd kr))
              (strategy_inputs self)
  | _ => false
  end.

(** The commodities of the result table with their grade labels. *)
Definition table_labels (r : Result) : list (string * list string) :=
  map (fun kt => (fst kt, map fst (grades (snd kt)))) (max_purchase_prices r).

Definition expected_labels : list (string * list string) :=
  [("tin_ore", ["60%"; "65%"; "70%"; "75%"]);
   ("coltan", ["20%"; "25%"; "30%"; "35%"]);
   ("monazite", ["30%"; "40%"; "45%"; "50%"; "60%"]);
   ("titanium", ["50%"]);
   ("zircon", ["65%"]);
   ("spodumene", ["3%"; "4%"; "5%"; "6%"]);
   ("lepidolite", ["2.0%"; "2.5%"; "3.0%"]);
   ("lead_ore", ["40%"; "50%"; "60%"]);
   ("zinc_ore", ["40%"; "50%"; "60%"])].

(** Every grade of [commodity] carries the missing-data marker [0]. *)
Definition marked_missing (r : Result) (commodity : string) : bool :=
  match assoc commodity (max_purchase_prices r) with
  | Some t => forallb (fun lg => snd lg =? 0) (grades t)
  | None => false
  end.

(** A tin record whose average is an object instead of a number. *)
Definition nested_price_snapshot : pyval :=
  snapshot (PFloat (7504 # 1000))
           {[ "tin" := avg (PDict {[ "value" := PInt 30000 ]}) ]}.

(** A snapshot whose [smm_prices] entry is [null]. *)
Definition null_prices_snapshot : pyval :=
  PDict {[ "smm_prices" := PNone ]}.


(** ** Calculators of the worked examples

    Each is what [__init__] builds from the snapshot named beside it (see
    the [init_*] lemmas below). *)

Definition example_today : string := "2025-01-15".
Definition example_now : string := "2025-01-15 09:00:00".

Definition calculator (pd usd_ngn_v usd_cny_v : pyval) (prices : gmap string pyval)
  : PriceCalculator :=
  {| price_data := pd; date := PStr example_today;
     USD_NGN := usd_ngn_v; USD_CNY := usd_cny_v; CNY_NGN := PInt 216;
     CNY_NGN_SOURCE := "Manual Override"; smm := PDict prices |}.

Definition example_calculator : PriceCalculator :=
  calculator example_snapshot
    (PFloat (inject_Z 216 * (7504 # 1000))) (PFloat (7504 # 1000))
    (<[ "tin" := avg (PInt 30000) ]> {[ "tantalum_oxide" := avg (PInt 65) ]}).

Definition low_price_calculator : PriceCalculator :=
  calculator low_price_snapshot (PInt 1512) (PInt 7)
    (<[ "monazite" := avg (PInt 10) ]>
     (<[ "spodumene" := avg (PInt 10) ]>
      {[ "lithium_carbonate" := avg (PInt 10) ]})).

(** A snapshot with no data at all. *)
Definition empty_snapshot : pyval := PDict ∅.
Definition empty_calculator : PriceCalculator :=
  calculator empty_snapshot (PFloat (inject_Z 216 * 7)) (PFloat 7) ∅.

(** Lithium carbonate quoted at [p] USD/mt, USD/CNY = 7. *)
Definition carbonate_snapshot (p : Z) : pyval :=
  snapshot (PInt 7) {[ "lithium_carbonate" := avg (PInt p) ]}.
Definition carbonate_calculator (p : Z) : PriceCalculator :=
  calculator (carbonate_snapshot p) (PInt 1512) (PInt 7)
    {[ "lithium_carbonate" := avg (PInt p) ]}.

(** Tin stored as a bare number instead of a record. *)
Definition bare_tin_prices : gmap string pyval := {[ "tin" := PInt 30000 ]}.
Definition bare_tin_snapshot : pyval := snapshot (PInt 7) bare_tin_prices.
Definition bare_tin_calculator : PriceCalculator :=
  calculator bare_tin_snapshot (PInt 1512) (PInt 7) bare_tin_prices.

(** The exchange rates left [null], as in the scraper's template. *)
Definition null_rate_snapshot : pyval := snapshot PNone ∅.

(** A tin price quoted as the string ["30000.5"], and a runtime whose
    [float] parses that string. *)
Definition string_price_calculator : PriceCalculator :=
  calculator (snapshot (PInt 7) {[ "tin" := avg (PStr "30000.5") ]}) (PInt 1512) (PInt 7)
    {[ "tin" := avg (PStr "30000.5") ]}.
Definition sample_float_of_str : string -> res Q :=
  fun str => if String.eqb str "30000.5" then Ok (300005 # 10)%Q else Raise ValueError.



(** ** The worked examples in binary64

    The expressions [calc_tin_ore] and [calc_coltan] evaluate on the worked
    examples, written with IEEE binary64 operations (round to nearest, ties
    to even), which is the arithmetic of Python's [float].  They bound the
    distance between the rational model and the program on these inputs,
    and show where binary64 absorbs a term that exact arithmetic keeps. *)

#[warnings="-inexact-float"]
Definition tin_example_binary64 : float :=
  ((30000 * (70 / 100)) * (216 * 7.504) - 80309) / 1.13 / 1000.

#[warnings="-inexact-float"]
Definition coltan_unit_binary64 : float :=
  ((65 - 8) / 1.13 / 100) * (216 * 7.504).

Definition coltan_example_binary64 : float := 30 * coltan_unit_binary64.

(** The arithmetic of [calc_lead_ore] and [calc_zinc_ore], of [calc_tin_ore]
    and of [calc_lepidolite] in binary64, operation by operation. *)
#[warnings="-inexact-float"]
Definition linear_ore_binary64 (metal_price_usd grade_percent usd_ngn_rate : float)
  : float :=
  ((metal_price_usd * (grade_percent / 100)) * usd_ngn_rate - 80309) / 1.13.

Definition tin_ore_binary64 (metal_price_usd grade_percent usd_ngn_rate : float)
  : float :=
  linear_ore_binary64 metal_price_usd grade_percent usd_ngn_rate / 1000.

#[warnings="-inexact-float"]
Definition lepidolite_binary64
    (carbonate_price_usd grade_percent usd_cny_rate cny_ngn_rate : float) : float :=
  (((carbonate_price_usd * usd_cny_rate - 45000) / 20 * (grade_percent / 2.5))
   * cny_ngn_rate - 80309) / 1.13 * 0.3.

(** The rate USD/NGN of the worked examples, and a price of 1e-16 USD with
    its double. *)
#[warnings="-inexact-float"]
Definition example_usd_ngn_binary64 : float := 216 * 7.504.



(** ** Readings used in the further properties *)

(** Two calculators that resolve the same rates. *)
Definition same_rates (self self' : PriceCalculator) : Prop :=
  USD_NGN self' = USD_NGN self /\ USD_CNY self' = USD_CNY self
  /\ CNY_NGN self' = CNY_NGN self.

(** The raw [exchange_rates] entry of a snapshot and the [usd_cny] it resolves to. *)
Definition raw_rates (m : gmap string pyval) : pyval :=
  dict_get_or m "exchange_rates" (PDict ∅).
Definition resolved_usd_cny (r : gmap string pyval) : pyval :=
  rate_of (dict_get_or r "usd_cny" (PDict ∅)) (PFloat 7).

(** ** The data directory

    [load_latest_prices], [save_results] and [main] of [price_calculator.py]
    and [PriceScraper.save_prices] of [price_scraper.py] read and write JSON
    files of one directory ([data]).  The directory is modelled as a map from
    entry names to files, [None] when it does not exist; it holds regular
    files only.  A file is what [json.load] makes of it: the JSON value it
    holds, or [NotJson] when it does not parse.  [json.dump] followed by
    [json.load] is the identity on values.  Outside the model are the limits
    of the operating system (permissions, name lengths) and a [json.dump]
    that stops on a string it cannot encode, leaving a partial file: a
    statement about a write is either about a call that completes, or holds
    whatever the call leaves under the name it writes. *)

Inductive file : Type :=
  | Json (v : pyval)
  | NotJson.

Definition filesystem : Type := option (gmap string file).

(** What a call on files can raise, besides the exceptions of the engine. *)
Inductive failure : Type :=
  | FileNotFoundError
  | JSONDecodeError
  | NotADirectoryError
  | IndexError
  | PyError (e : exn).

Inductive io (A : Type) : Type :=
  | Done (a : A)
  | Fail (e : failure).
Arguments Done {A} a.
Arguments Fail {A} e.

(** [s.startswith(pre)] and [s.endswith(suf)]. *)
Fixpoint startswith (s pre : string) {struct pre} : bool :=
  match pre with
  | EmptyString => true
  | String a pre' =>
      match s with
      | EmptyString => false
      | String b s' => Ascii.eqb a b && startswith s' pre'
      end
  end.

Definition endswith (s suf : string) : bool :=
  (String.length suf <=? String.length s)%nat
  && String.eqb (substring (String.length s - String.length suf)
                           (String.length suf) s) suf.

(** [c in s] for a character. *)
Fixpoint has_char (c : ascii) (s : string) : bool :=
  match s with
  | EmptyString => false
  | String a s' => Ascii.eqb a c || has_char c s'
  end.

(** [l.sort(reverse=True)] on names: descending in the order of [str],
    which compares code points; on UTF-8 bytes that is the byte order of
    [String.leb]. *)
Fixpoint insert_desc (x : string) (l : list string) : list string :=
  match l with
  | [] => [x]
  | y :: l' => if String.leb y x then x :: l else y :: insert_desc x l'
  end.

Definition sort_desc (l : list string) : list string := foldr insert_desc [] l.

(** [json.load(f)]. *)
Definition json_load (f : file) : io pyval :=
  match f with
  | Json v => Done v
  | NotJson => Fail JSONDecodeError
  end.

(** [os.listdir(data_dir)]: the entry names, in an order the caller must
    not rely on. *)
Definition listdir (d : gmap string file) : list string := (map_to_list d).*1.

(** [f.startswith("prices_") and f.endswith(".json")]. *)
Definition is_price_file (f : string) : bool :=
  startswith f "prices_" && endswith f ".json".

(** The first component of a relative path. *)
Fixpoint before_slash (s : string) : string :=
  match s with
  | EmptyString => EmptyString
  | String a s' => if Ascii.eqb a "/" then EmptyString else String a (before_slash s')
  end.

(** [open(os.path.join(data_dir, name), "w")] followed by [json.dump], when
    the system accepts the name and the value can be encoded: a name with a
    NUL byte is refused; a name with a slash leads into a subdirectory,
    which a directory of regular files does not have; otherwise the entry
    is created or replaced. *)
Definition open_w (fs : filesystem) (name : string) (content : file) : io filesystem :=
  if has_char "000"%char name then Fail (PyError ValueError)
  else
    match fs with
    | Some d =>
        if has_char "/"%char name then
          match d !! before_slash name with
          | Some _ => Fail NotADirectoryError
          | None => Fail FileNotFoundError
          end
        else Done (Some (<[ name := content ]> d))
    | None => Fail FileNotFoundError
    end.

Section Files.
Variable float_of_str : string -> res Q.
Variable today now : string.
(** [str(v)] for a value that is not a string. *)
Variable py_str : pyval -> string.
(** The JSON document [json.dump] writes for the dict of a result. *)
Variable json_of_result : Result -> pyval.
(** [PriceCalculator.print_results] writes to the console only; [main]
    depends on it through whether it raises. *)
Variable print_results : Result -> res Datatypes.unit.

(** A value inside an f-string. *)
Definition fstr (v : pyval) : string :=
  match v with
  | PStr s => s
  | _ => py_str v
  end.

(** *** [load_latest_prices], [save_results] and [main] *)

Definition load_latest_prices (fs : filesystem) : io pyval :=
  let price_file := "prices_" ++ today ++ ".json" in
  match fs ≫= (.!! price_file) with
  | Some f => json_load f
  | None =>
      match fs with
      | None => Fail FileNotFoundError
      | Some d =>
          let files := List.filter is_price_file (listdir d) in
          match files with
          | [] => Done PNone
          | _ :: _ =>
              let price_file := hd "" (sort_desc files) in
              match d !! price_file with
              | Some f => json_load f
              | None => Fail FileNotFoundError
              end
          end
      end
  end.

Definition save_results (results : Result) (fs : filesystem) : io filesystem :=
  let d := result_date results in
  let output_file := "max_purchase_prices_" ++ fstr d ++ ".json" in
  open_w fs output_file (Json (json_of_result results)).

Definition main (fs : filesystem) : filesystem * io Datatypes.unit :=
  match load_latest_prices fs with
  | Fail e => (fs, Fail e)
  | Done price_data =>
      if negb (truthy price_data) then (fs, Done tt)
      else
        match init today price_data with
        | Raise e => (fs, Fail (PyError e))
        | Ok calculator =>
            match calculate_all float_of_str now calculator with
            | Raise e => (fs, Fail (PyError e))
            | Ok results =>
                match print_results results with
                | Raise e => (fs, Fail (PyError e))
                | Ok _ =>
                    match save_results results fs with
                    | Fail e => (fs, Fail e)
                    | Done fs' => (fs', Done tt)
                    end
                end
            end
        end
  end.

(** *** [PriceScraper._ensure_data_dir] and [PriceScraper.save_prices] *)

Definition _ensure_data_dir (fs : filesystem) : filesystem :=
  match fs with
  | Some d => Some d
  | None => Some ∅
  end.

(** The key [json.dump] writes for a dict key that is not a string. *)
Variable json_key : pyval -> string.

(** [seq[i] = v] on a list, with Python's negative indices. *)
Definition list_setitem (l : list pyval) (i : Z) (v : pyval) : io pyval :=
  let n := Z.of_nat (List.length l) in
  let idx := if i <? 0 then i + n else i in
  if (0 <=? idx) && (idx <? n)
  then Done (PList (<[ Z.to_nat idx := v ]> l))
  else Fail IndexError.

(** [history[date] = price_data], as the history file shows it once written
    and read back. *)
Definition setitem (history date v : pyval) : io pyval :=
  match history with
  | PDict h =>
      match date with
      | PList _ | PDict _ => Fail (PyError TypeError)
      | PStr s => Done (PDict (<[ s := v ]> h))
      | _ => Done (PDict (<[ json_key date := v ]> h))
      end
  | PList l =>
      match date with
      | PInt i => list_setitem l i v
      | PBool b => list_setitem l (Z_of_bool b) v
      | _ => Fail (PyError TypeError)
      end
  | _ => Fail (PyError TypeError)
  end.

(** The entry that [PRICE_JSON_FILE = "data/price_history.json"] of
    [config.py] names inside the data directory. *)
Definition history_file : string := "price_history.json".

Definition save_prices (price_data : pyval) (fs : filesystem)
  : filesystem * io Datatypes.unit :=
  match py_get price_data "date" (PStr today) with
  | Raise e => (fs, Fail (PyError e))
  | Ok d =>
      let daily_file := "prices_" ++ fstr d ++ ".json" in
      match open_w fs daily_file (Json price_data) with
      | Fail e => (fs, Fail e)
      | Done fs1 =>
          let loaded :=
            match fs1 ≫= (.!! history_file) with
            | Some f => json_load f
            | None => Done (PDict ∅)
            end in
          match loaded with
          | Fail e => (fs1, Fail e)
          | Done history =>
              match setitem history d price_data with
              | Fail e => (fs1, Fail e)
              | Done history' =>
                  match open_w fs1 history_file (Json history') with
                  | Fail e => (fs1, Fail e)
                  | Done fs2 => (fs2, Done tt)
                  end
              end
          end
      end
  end.
End Files.

(** [m] is listed in [l] and no listed name is greater. *)
Definition greatest (m : string) (l : list string) : Prop :=
  In m l /\ forall x, In x l -> String.leb x m = true.


(** ** Instances for the further properties *)

(** Stand-ins for the runtime functions, which no instance below reaches
    with an argument they would have to interpret. *)
Definition sample_py_str : pyval -> string := fun _ => "None".
Definition sample_json_key : pyval -> string := fun _ => "null".
Definition sample_json_of_result : Result -> pyval := fun r => result_date r.
Definition sample_print_results : Result -> res Datatypes.unit := fun _ => Ok tt.

(** One commodity quoted at [p], USD/CNY = 7. *)
Definition quote_calculator (key : string) (p : Z) : PriceCalculator :=
  calculator (snapshot (PInt 7) {[ key := avg (PInt p) ]}) (PInt 1512) (PInt 7)
    {[ key := avg (PInt p) ]}.

(** USD/CNY quoted as the string ["7.1"], tin at 30,000 USD/mt. *)
Definition string_rate_rates : gmap string pyval := {[ "usd_cny" := PStr "7.1" ]}.
Definition string_rate_prices : gmap string pyval := {[ "tin" := avg (PInt 30000) ]}.
Definition string_rate_document : gmap string pyval :=
  <[ "exchange_rates" := PDict string_rate_rates ]>
  {[ "smm_prices" := PDict string_rate_prices ]}.
Definition string_rate_calculator : PriceCalculator :=
  calculator (PDict string_rate_document) (PStr (str_repeat "7.1" 216)) (PStr "7.1")
    string_rate_prices.

(** A data directory with two earlier snapshots, a history that does not
    parse and an earlier result. *)
Definition sample_directory : gmap string file :=
  <[ "prices_2025-01-14.json" := Json example_snapshot ]>
  (<[ "prices_2025-01-10.json" := Json low_price_snapshot ]>
   (<[ "price_history.json" := NotJson ]>
    {[ "max_purchase_prices_2025-01-14.json" := Json PNone ]})).

(** A data directory holding today's snapshot and a history with one day. *)
Definition today_directory : gmap string file :=
  <[ "prices_2025-01-15.json" := Json example_snapshot ]>
  {[ "price_history.json" := Json (PDict {[ "2025-01-14" := low_price_snapshot ]}) ]}.

(** The same directories after a result, and a first snapshot, are saved. *)
Definition sample_directory_with_result : gmap string file :=
  <[ "max_purchase_prices_2025-01-15.json" := Json (PStr "2025-01-15") ]>
  sample_directory.
Definition first_save_directory : gmap string file :=
  <[ history_file := Json (PDict (<[ "2025-01-15" := empty_snapshot ]> ∅)) ]>
  (<[ "prices_2025-01-15.json" := Json empty_snapshot ]> ∅).

(** A result dated 2025-01-15 with empty tables. *)
Definition sample_result : Result :=
  {| result_date := PStr "2025-01-15"; calculation_time := example_now;
     exchange_rates := {| usd_ngn := PInt 1512; usd_cny := PInt 7;
                          cny_ngn := PInt 216; cny_ngn_source := "Manual Override" |};
     parameters := {| vat_rate := VAT_RATE;
                      logistics_cost_sea_ngn := LOGISTICS_COST_SEA;
                      coltan_air_cost_usd := COLTAN_AIR_COST;
                      spodumene_discount := SPODUMENE_DISCOUNT;
                      lepidolite_discount := LEPIDOLITE_DISCOUNT |};
     source_prices := []; max_purchase_prices := [] |}.

(** * Properties *)

Lemma bind_Ok {A B} (m : res A) (f : A -> res B) (b : B) :
  m ≫= f = Ok b -> exists a, m = Ok a /\ f a = Ok b.
Proof. destruct m as [a|e]; simpl; [eauto | discriminate]. Qed.

Lemma py_float_mul_num (x : Q) (v : pyval) (r : Q) :
  as_float v = Some r -> py_float_mul x v = Ok (x * r)%Q.
Proof. destruct v; simpl; intros H; inversion H; reflexivity. Qed.

Lemma init_with_inv today o pd c :
  init_with today o pd = Ok c ->
  py_mul (CNY_NGN c) (USD_CNY c) = Ok (USD_NGN c).
Proof.
  unfold init_with. intros H.
  apply bind_Ok in H as (d & _ & H).
  apply bind_Ok in H as (rates & _ & H).
  apply bind_Ok in H as (n & _ & H).
  apply bind_Ok in H as (u & _ & H).
  apply bind_Ok in H as (k & _ & H).
  destruct o as [ov|]; cbn zeta beta iota in H.
  - apply bind_Ok in H as (m & Hm & H).
    apply bind_Ok in H as (s & _ & H).
    inversion H; subst; simpl. exact Hm.
  - apply bind_Ok in H as (m & Hm & H).
    apply bind_Ok in H as (s & _ & H).
    inversion H; subst; simpl. exact Hm.
Qed.

Lemma init_usd_ngn_irrelevant today o (m r : gmap string pyval) (v : pyval) :
  rates_of (init_with today o (PDict (<[ "exchange_rates" := PDict (<[ "usd_ngn" := v ]> r) ]> m)))
  = rates_of (init_with today o (PDict (<[ "exchange_rates" := PDict (delete "usd_ngn" r) ]> m))).
Proof.
  unfold init_with, py_get, dict_get_or.
  rewrite !lookup_insert_eq.
  rewrite !(lookup_insert_ne _ "exchange_rates") by done.
  cbn [from_option id mbind res_bind].
  rewrite !(lookup_insert_ne _ "usd_ngn") by done.
  rewrite !(lookup_delete_ne _ "usd_ngn") by done.
  destruct o as [ov|];
    match goal with |- context [py_mul ?a ?b] => destruct (py_mul a b) end;
    destruct (m !! "smm_prices"); reflexivity.
Qed.

(** Division by a constant of the source is multiplication by its inverse,
    which [lra] and [nra] understand. *)
Ltac q_consts :=
  unfold VAT_RATE, LOGISTICS_COST_SEA, COLTAN_AIR_COST, SPODUMENE_DISCOUNT,
    LEPIDOLITE_DISCOUNT, LEPIDOLITE_TONS_PER_CARBONATE,
    LEPIDOLITE_PROCESSING_COST_CNY, LEPIDOLITE_BASE_GRADE, Qdiv in *;
  cbn [Qinv Qnum Qden inject_Z] in *.

Section Properties.
Variable float_of_str : string -> res Q.
Variable today now : string.

Lemma with_price_usable (p : Q) (k : Q -> res Q) :
  ~ (p == 0)%Q -> with_price (Some p) k = k p.
Proof.
  intros Hp. unfold with_price, not_price.
  destruct (Qeq_bool p 0) eqn:E; [|reflexivity].
  apply Qeq_bool_eq in E. contradiction.
Qed.

Lemma with_price_missing (k : Q -> res Q) : with_price None k = Ok 0%Q.
Proof. reflexivity. Qed.

(** C1.  When the tin reference price resolves to a usable value and the
    resolved USD/NGN rate is the number [fx], [calc_tin_ore grade] is
    [((referenceUSD * grade/100) * fx - LOGISTICS_COST_SEA) / VAT_RATE / 1000].
    On the worked example (tin 30,000 USD/mt, USD/CNY 7.504, CNY/NGN 216)
    the price at grade 70, rounded to whole units, is 30,051, and that is
    the ["70%"] entry [calculate_all] reports for tin. *)
Theorem calc_tin_ore_formula :
  (forall (self : PriceCalculator) (grade referenceUSD fx : Q),
      get_price_default float_of_str self "tin" = Ok (Some referenceUSD) ->
      ~ (referenceUSD == 0)%Q ->
      as_float (USD_NGN self) = Some fx ->
      calc_tin_ore float_of_str self grade
      = Ok (((referenceUSD * (grade / 100)) * fx - LOGISTICS_COST_SEA)
            / VAT_RATE / 1000)%Q)
  /\ (c ← init today example_snapshot;
      x ← calc_tin_ore float_of_str c 70;
      mret (py_round0 x)) = Ok 30051
  /\ (c ← init today example_snapshot;
      r ← calculate_all float_of_str now c;
      mret (grade_price r "tin_ore" "70%")) = Ok (Some 30051).
Proof.
  split; [|split].
  - intros self grade p fx Hget Hp Hfx. unfold calc_tin_ore.
    rewrite Hget. cbn [mbind res_bind].
    rewrite with_price_usable by exact Hp.
    rewrite (py_float_mul_num _ _ _ Hfx). reflexivity.
  - vm_compute. reflexivity.
  - vm_compute. reflexivity.
Qed.

Lemma usable_of_pos (p : Q) : (0 < p)%Q -> ~ (p == 0)%Q.
Proof. intros H E. rewrite E in H. discriminate. Qed.

(** C5, as amended.  [calc_coltan grade] is
    [grade * (((oxideUSD - COLTAN_AIR_COST) / VAT_RATE / 100) * fx)]: the air
    cost is subtracted before the VAT division and there is no sea-logistics
    term.  On the worked example (oxide 65 USD/kg, USD/CNY 7.504, CNY/NGN
    216) the price per grade point is 817.6 NGN to one decimal and the price
    at grade 30 rounds to 24,528 NGN/kg. *)
Theorem calc_coltan_formula :
  (forall (self : PriceCalculator) (grade oxideUSD fx : Q),
      get_price_default float_of_str self "tantalum_oxide" = Ok (Some oxideUSD) ->
      ~ (oxideUSD == 0)%Q ->
      as_float (USD_NGN self) = Some fx ->
      calc_coltan float_of_str self grade
      = Ok (grade * (((oxideUSD - COLTAN_AIR_COST) / VAT_RATE / 100) * fx))%Q)
  /\ (c ← init today example_snapshot;
      u ← calc_coltan float_of_str c 1;
      x ← calc_coltan float_of_str c 30;
      mret (py_round0 (10 * u), py_round0 x)) = Ok (8176, 24528).
Proof.
  split.
  - intros self grade p fx Hget Hp Hfx. unfold calc_coltan.
    rewrite Hget. cbn [mbind res_bind].
    rewrite with_price_usable by exact Hp.
    rewrite (py_float_mul_num _ _ _ Hfx). reflexivity.
  - vm_compute. reflexivity.
Qed.

(** C6.  For each of the nine strategies: when the lookup of its reference
    price returns [None], the strategy returns the sentinel [0]; it does not
    raise. *)
Theorem missing_price_gives_sentinel (self : PriceCalculator) (grade : Q) :
  (get_price_default float_of_str self "tin" = Ok None ->
   calc_tin_ore float_of_str self grade = Ok 0%Q)
  /\ (get_price_default float_of_str self "tantalum_oxide" = Ok None ->
      calc_coltan float_of_str self grade = Ok 0%Q)
  /\ (_get_price float_of_str self "monazite_concentrate" "price_avg"
                 ["monazite"; "monazite_concentrate"] = Ok None ->
      calc_monazite float_of_str self grade = Ok 0%Q)
  /\ (get_price_default float_of_str self "titanium_concentrate" = Ok None ->
      calc_titanium float_of_str self = Ok 0%Q)
  /\ (get_price_default float_of_str self "zircon_sand" = Ok None ->
      calc_zircon float_of_str self = Ok 0%Q)
  /\ (get_price_default float_of_str self "spodumene" = Ok None ->
      calc_spodumene float_of_str self grade = Ok 0%Q)
  /\ (get_price_default float_of_str self "lithium_carbonate" = Ok None ->
      calc_lepidolite float_of_str self grade = Ok 0%Q)
  /\ (get_price_default float_of_str self "lead" = Ok None ->
      calc_lead_ore float_of_str self grade = Ok 0%Q)
  /\ (get_price_default float_of_str self "zinc" = Ok None ->
      calc_zinc_ore float_of_str self grade = Ok 0%Q).
Proof.
  unfold calc_tin_ore, calc_coltan, calc_monazite, calc_titanium, calc_zircon,
    calc_spodumene, calc_lepidolite, calc_lead_ore, calc_zinc_ore.
  repeat split; intros ->; reflexivity.
Qed.

Lemma calc_monazite_nonneg (self : PriceCalculator) (grade v : Q) :
  calc_monazite float_of_str self grade = Ok v -> (0 <= v)%Q.
Proof.
  unfold calc_monazite, with_price.
  destruct (_get_price _ _ _ _ _) as [p|e]; cbn [mbind res_bind]; [|discriminate].
  destruct (not_price p); [intros [= <-]; apply Qle_refl|].
  destruct (py_float_mul _ _) as [x|e]; cbn [mbind res_bind]; [|discriminate].
  destruct (Qle_bool _ 0) eqn:E; intros [= <-]; [apply Qle_refl|].
  assert (H : ~ (x * (grade / 60) - LOGISTICS_COST_SEA <= 0)%Q)
    by (rewrite <- Qle_bool_iff, E; discriminate).
  q_consts. lra.
Qed.

(** C4.  [calc_monazite] returns exactly [0] whenever the value before VAT
    (grade-scaled reference price in NGN minus the sea-logistics cost) is
    [<= 0], and it never returns a negative number; [calc_spodumene] and
    [calc_lepidolite] apply no such clamp and return a negative price on
    the low-price snapshot, where monazite returns [0]. *)
Theorem monazite_clamp_only :
  (forall (self : PriceCalculator) (grade referenceUSD fx : Q),
      _get_price float_of_str self "monazite_concentrate" "price_avg"
                 ["monazite"; "monazite_concentrate"] = Ok (Some referenceUSD) ->
      as_float (USD_NGN self) = Some fx ->
      (referenceUSD * fx * (grade / 60) - LOGISTICS_COST_SEA <= 0)%Q ->
      calc_monazite float_of_str self grade = Ok 0%Q)
  /\ (forall (self : PriceCalculator) (grade v : Q),
      calc_monazite float_of_str self grade = Ok v -> (0 <= v)%Q)
  /\ (c ← init today low_price_snapshot; calc_monazite float_of_str c 30) = Ok 0%Q
  /\ lt_res (c ← init today low_price_snapshot; calc_spodumene float_of_str c 3)
            (Ok 0%Q)
  /\ lt_res (c ← init today low_price_snapshot; calc_lepidolite float_of_str c 2)
            (Ok 0%Q).
Proof.
  split; [|split; [|split; [|split]]].
  - intros self grade p fx Hget Hfx Hfob. unfold calc_monazite.
    rewrite Hget. cbn [mbind res_bind]. unfold with_price, not_price.
    destruct (Qeq_bool p 0); [reflexivity|]. cbn [default from_option id].
    rewrite (py_float_mul_num _ _ _ Hfx). cbn [mbind res_bind].
    apply Qle_bool_iff in Hfob. rewrite Hfob. reflexivity.
  - exact calc_monazite_nonneg.
  - vm_compute. reflexivity.
  - vm_compute. reflexivity.
  - vm_compute. reflexivity.
Qed.




(** One attempt of the code, in terms of the value it selects. *)
Lemma try_key_selected (s : gmap string pyval) (key field : string) :
  try_key float_of_str s key field =
  let p := selected s field key in
  if is_not_None p
  then Some (if py_ne0 p then x ← py_float float_of_str p; mret (Some x) else mret None)
  else None.
Proof.
  unfold try_key, selected. destruct (dict_get_or s key (PDict ∅)); reflexivity.
Qed.





(** C3, at the failing input.  With a zero stored under ["price"] of the
    primary key and a usable quote under the first fallback key,
    [_get_price] returns [None] at once where the lookup of the
    specification returns the fallback quote; with the same zero stored
    under ["price_avg"] the code does reach the fallback.  [calc_monazite]
    accordingly reports 0 in the first case and 9,970 in the second. *)
Theorem zero_price_stops_lookup :
  (c ← init today zero_price_snapshot;
   _get_price float_of_str c "monazite_concentrate" "price_avg"
              ["monazite"; "monazite_concentrate"]) = Ok None
  /\ (c ← init today zero_price_snapshot;
      match smm c with
      | PDict s => mret (lookup_spec s "monazite_concentrate" "price_avg"
                                     ["monazite"; "monazite_concentrate"])
      | _ => mret None
      end) = Ok (Some (750435 # 100)%Q)
  /\ (c ← init today zero_avg_snapshot;
      _get_price float_of_str c "monazite_concentrate" "price_avg"
                 ["monazite"; "monazite_concentrate"]) = Ok (Some (750435 # 100)%Q)
  /\ (c ← init today zero_price_snapshot;
      x ← calc_monazite float_of_str c 60; mret (py_round0 x)) = Ok 0
  /\ (c ← init today zero_avg_snapshot;
      x ← calc_monazite float_of_str c 60; mret (py_round0 x)) = Ok 9970.
Proof. repeat split; vm_compute; reflexivity. Qed.

Lemma falsy_not_usable (v : pyval) : truthy v = false -> usable_value v = None.
Proof.
  destruct v; simpl; try reflexivity.
  - destruct (z =? 0); [reflexivity | discriminate].
  - destruct (Qeq_bool q 0); [reflexivity | discriminate].
Qed.

Lemma usable_converts (v : pyval) (x : Q) :
  usable_value v = Some x ->
  is_not_None v = true /\ py_ne0 v = true /\ py_float float_of_str v = Ok x.
Proof.
  destruct v; simpl; try discriminate.
  - destruct (z =? 0); [discriminate|]. intros [= <-]. auto.
  - destruct (Qeq_bool q 0); [discriminate|]. intros [= <-]. auto.
Qed.

Lemma selected_usable (s : gmap string pyval) (field key : string) (x : Q) :
  usable_value (selected s field key) = Some x -> attempt_spec s field key = Some x.
Proof.
  unfold selected, attempt_spec, dict_get_or.
  destruct (s !! key) as [v|]; cbn [from_option id].
  - destruct v; try discriminate. unfold py_or.
    destruct (truthy (dict_get d field)) eqn:T.
    + intros ->. reflexivity.
    + rewrite (falsy_not_usable _ T). auto.
  - unfold py_or, dict_get. rewrite !lookup_empty. discriminate.
Qed.

Lemma selected_none (s : gmap string pyval) (field key : string) :
  selected s field key = PNone -> attempt_spec s field key = None.
Proof.
  unfold selected, attempt_spec, dict_get_or.
  destruct (s !! key) as [v|]; cbn [from_option id]; [|reflexivity].
  destruct v; try reflexivity. unfold py_or.
  destruct (truthy (dict_get d field)) eqn:T.
  - intros E. rewrite E in T. discriminate.
  - rewrite (falsy_not_usable _ T). intros ->. reflexivity.
Qed.

Lemma first_hit_agrees (s : gmap string pyval) (field : string) (keys : list string) :
  Forall (clean_attempt s field) keys ->
  try_fallbacks float_of_str s field keys = Ok (first_hit_spec s field keys).
Proof.
  induction 1 as [|k ks Hk _ IH]; [reflexivity|].
  cbn [try_fallbacks first_hit_spec]. rewrite try_key_selected. cbn zeta.
  destruct Hk as [E | (x & E)].
  - rewrite (selected_none _ _ _ E), E. exact IH.
  - rewrite (selected_usable _ _ _ _ E).
    destruct (usable_converts _ _ E) as (-> & -> & ->). reflexivity.
Qed.

(** Where no attempt selects a zero or a value that is not a number, the
    code computes the lookup of the specification. *)
Lemma get_price_agrees (self : PriceCalculator) (s : gmap string pyval)
    (key field : string) (fallback_keys : list string) :
  smm self = PDict s ->
  Forall (clean_attempt s field) (key :: fallback_keys) ->
  _get_price float_of_str self key field fallback_keys
  = Ok (lookup_spec s key field fallback_keys).
Proof.
  intros Hs Hall. unfold _get_price, lookup_spec. rewrite Hs.
  exact (first_hit_agrees s field (key :: fallback_keys) Hall).
Qed.

(** *** Returning on well-shaped snapshots *)

Lemma py_float_mul_total (x : Q) (v : pyval) :
  is_Some (as_float v) -> exists y, py_float_mul x v = Ok y.
Proof. intros (r & Hr). rewrite (py_float_mul_num _ _ _ Hr). eauto. Qed.

Lemma try_fallbacks_decided (s : gmap string pyval) (field : string)
    (keys : list string) :
  try_fallbacks float_of_str s field keys
  = decided float_of_str (first_selected s field keys).
Proof.
  induction keys as [|k ks IH]; [reflexivity|].
  cbn [try_fallbacks first_selected]. rewrite try_key_selected. cbn zeta.
  destruct (is_not_None (selected s field k)) eqn:E; [|exact IH].
  unfold decided. rewrite E. reflexivity.
Qed.

Lemma get_price_decided (self : PriceCalculator) (s : gmap string pyval)
    (key field : string) (fallback_keys : list string) :
  smm self = PDict s ->
  _get_price float_of_str self key field fallback_keys
  = decided float_of_str (first_selected s field (key :: fallback_keys)).
Proof.
  intros Hs. rewrite <- try_fallbacks_decided. unfold _get_price. rewrite Hs.
  reflexivity.
Qed.

Lemma binary64_number_as_float (v : pyval) :
  binary64_number v = true -> is_Some (as_float v).
Proof. destruct v; simpl; try discriminate; eauto. Qed.

Lemma strategy_returns_decided (v : pyval) (rates : list pyval) :
  strategy_returns float_of_str v rates = true ->
  exists p, decided float_of_str v = Ok p
            /\ (not_price p = true \/ Forall (fun r => is_Some (as_float r)) rates).
Proof.
  assert (Hrates : forallb binary64_number rates = true ->
                   Forall (fun r => is_Some (as_float r)) rates).
  { rewrite forallb_forall. intros H. apply List.Forall_forall. intros r Hr.
    apply binary64_number_as_float, H, Hr. }
  unfold strategy_returns, decided.
  destruct v as [|b|z|q|str|l|d]; cbn [is_not_None py_ne0 py_float binary64_number negb].
  - intros _. exists None. split; [reflexivity | left; reflexivity].
  - destruct b; cbn [negb orb andb mbind res_bind mret res_ret].
    + intros H. eexists. split; [reflexivity|]. right. auto.
    + intros _. eexists. split; [reflexivity|]. left. reflexivity.
  - destruct (z =? 0); cbn [negb orb andb mbind res_bind mret res_ret].
    + intros _. eexists. split; [reflexivity|]. left. reflexivity.
    + intros H. apply andb_true_iff in H as [_ H].
      eexists. split; [reflexivity|]. right. auto.
  - destruct (Qeq_bool q 0); cbn [negb orb andb mbind res_bind mret res_ret].
    + intros _. eexists. split; [reflexivity|]. left. reflexivity.
    + intros H. eexists. split; [reflexivity|]. right. auto.
  - destruct (float_of_str str) as [x|e]; [|discriminate].
    cbn [mbind res_bind mret res_ret]. intros H. exists (Some x).
    split; [reflexivity|]. apply orb_true_iff in H as [H | H]; [left; exact H | right; auto].
  - cbn. discriminate.
  - cbn. discriminate.
Qed.

Lemma grade_rows_returns (calc : Q -> res Q) (gs : list (string * Q)) :
  (forall g, exists v, calc g = Ok v) ->
  exists rows, grade_rows calc gs = Ok rows
               /\ map fst rows = map fst gs
               /\ ((forall g, calc g = Ok 0%Q) ->
                   forallb (fun lg => snd lg =? 0) rows = true).
Proof.
  intros Hcalc. induction gs as [|[label g] gs (rows & IH & Hl & Hz)].
  - exists []. repeat split; reflexivity.
  - cbn [grade_rows]. destruct (Hcalc g) as (v & Hv). rewrite Hv. cbn [mbind res_bind].
    rewrite IH. cbn [mbind res_bind]. eexists. split; [reflexivity|]. split.
    + simpl. rewrite Hl. reflexivity.
    + intros H0. rewrite H0 in Hv. injection Hv as <-.
      cbn [forallb snd]. rewrite (Hz H0). reflexivity.
Qed.

Section OnWellShaped.
Variable self : PriceCalculator.
Hypothesis Hshape : well_shaped float_of_str self = true.

Lemma well_shaped_lookup (keys : list string) (rates : list pyval) :
  In (keys, rates) (strategy_inputs self) ->
  exists s p, smm self = PDict s
              /\ decided float_of_str (first_selected s "price_avg" keys) = Ok p
              /\ (not_price p = true \/ Forall (fun r => is_Some (as_float r)) rates).
Proof.
  intros Hin. unfold well_shaped in Hshape.
  destruct (smm self) as [| | | | | |s]; try discriminate.
  rewrite forallb_forall in Hshape. specialize (Hshape _ Hin). cbn [fst snd] in Hshape.
  destruct (strategy_returns_decided _ _ Hshape) as (p & Hp & Hr).
  exists s, p. auto.
Qed.

Lemma strategy_lookup_returns (key : string) (fallback_keys : list string)
    (rates : list pyval) :
  In (key :: fallback_keys, rates) (strategy_inputs self) ->
  exists p, _get_price float_of_str self key "price_avg" fallback_keys = Ok p
            /\ (not_price p = true \/ Forall (fun r => is_Some (as_float r)) rates).
Proof.
  intros Hin. destruct (well_shaped_lookup _ _ Hin) as (s & p & Hs & Hp & Hr).
  exists p. split; [|exact Hr]. rewrite (get_price_decided self s _ _ _ Hs). exact Hp.
Qed.

(** The source price of monazite is looked up without the fallback keys. *)
Lemma monazite_source_lookup_returns :
  exists p, get_price_default float_of_str self "monazite_concentrate" = Ok p.
Proof.
  destruct (well_shaped_lookup
              ["monazite_concentrate"; "monazite"; "monazite_concentrate"]
              [USD_NGN self]) as (s & p & Hs & Hp & _).
  { unfold strategy_inputs. do 2 right. left. reflexivity. }
  unfold get_price_default. rewrite (get_price_decided self s _ _ _ Hs).
  cbn [first_selected] in Hp |- *.
  destruct (is_not_None (selected s "price_avg" "monazite_concentrate")) eqn:E.
  - eauto.
  - unfold decided. cbn [is_not_None]. eauto.
Qed.

Ltac strategy_returns_tac :=
  intros;
  match goal with
  | |- exists v, (_get_price ?f ?s ?k ?fl ?fb ≫= _) = Ok v =>
      let p := fresh "p" in let E := fresh "E" in let Hr := fresh "Hr" in
      destruct (strategy_lookup_returns k fb _
                  ltac:(unfold strategy_inputs; cbn [In]; tauto)) as (p & E & Hr);
      rewrite E; cbn [mbind res_bind]; unfold with_price;
      destruct Hr as [Hr | Hr]; [rewrite Hr; eexists; reflexivity |];
      destruct (not_price p); [eexists; reflexivity |]
  end;
  repeat match goal with
    | Hr : Forall _ (_ :: _) |- _ => apply Forall_cons_1 in Hr as [? Hr]
    end;
  repeat match goal with
    | |- context [py_float_mul ?x ?v] =>
        let y := fresh "y" in let E := fresh "E" in
        destruct (py_float_mul_total x v) as (y & E);
        [assumption |]; rewrite E; cbn [mbind res_bind]
    end;
  try match goal with |- context [if ?b then _ else _] => destruct b end;
  eexists; reflexivity.

Lemma calc_tin_ore_returns g : exists v, calc_tin_ore float_of_str self g = Ok v.
Proof. unfold calc_tin_ore, get_price_default. strategy_returns_tac. Qed.
Lemma calc_coltan_returns g : exists v, calc_coltan float_of_str self g = Ok v.
Proof. unfold calc_coltan, get_price_default. strategy_returns_tac. Qed.
Lemma calc_monazite_returns g : exists v, calc_monazite float_of_str self g = Ok v.
Proof. unfold calc_monazite. strategy_returns_tac. Qed.
Lemma calc_titanium_returns : exists v, calc_titanium float_of_str self = Ok v.
Proof. unfold calc_titanium, get_price_default. strategy_returns_tac. Qed.
Lemma calc_zircon_returns : exists v, calc_zircon float_of_str self = Ok v.
Proof. unfold calc_zircon, get_price_default. strategy_returns_tac. Qed.
Lemma calc_spodumene_returns g : exists v, calc_spodumene float_of_str self g = Ok v.
Proof. unfold calc_spodumene, get_price_default. strategy_returns_tac. Qed.
Lemma calc_lepidolite_returns g : exists v, calc_lepidolite float_of_str self g = Ok v.
Proof. unfold calc_lepidolite, get_price_default. strategy_returns_tac. Qed.
Lemma calc_lead_ore_returns g : exists v, calc_lead_ore float_of_str self g = Ok v.
Proof. unfold calc_lead_ore, get_price_default. strategy_returns_tac. Qed.
Lemma calc_zinc_ore_returns g : exists v, calc_zinc_ore float_of_str self g = Ok v.
Proof. unfold calc_zinc_ore, get_price_default. strategy_returns_tac. Qed.

End OnWellShaped.
End Properties.

(** ** Exchange-rate resolution *)

Lemma py_mul_numeric (a b v : pyval) (x y : Q) :
  as_float a = Some x -> as_float b = Some y -> py_mul a b = Ok v ->
  exists z, as_float v = Some z /\ (z == x * y)%Q.
Proof.
  destruct a, b; simpl; try discriminate;
    intros [= <-] [= <-] [= <-]; eexists; (split; [reflexivity|]);
    first [apply Qeq_refl | apply inject_Z_mult].
Qed.

(** C2.  Whenever construction returns a calculator, under any override
    setting, its [USD_NGN] is the product [CNY_NGN * USD_CNY] the code
    computed, which for numeric rates is the product of the two numbers; and
    the resolved rates (or the exception raised) are the same whatever value
    the snapshot stores under [usd_ngn], as if the entry were absent. *)
Theorem resolved_rates_consistent :
  (forall (today : string) (override : option pyval) (pd : pyval)
          (c : PriceCalculator),
      init_with today override pd = Ok c ->
      py_mul (CNY_NGN c) (USD_CNY c) = Ok (USD_NGN c)
      /\ forall a b : Q,
           as_float (CNY_NGN c) = Some a -> as_float (USD_CNY c) = Some b ->
           exists x, as_float (USD_NGN c) = Some x /\ (x == a * b)%Q)
  /\ (forall (today : string) (override : option pyval)
             (m r : gmap string pyval) (v : pyval),
      rates_of (init_with today override
                  (PDict (<[ "exchange_rates" := PDict (<[ "usd_ngn" := v ]> r) ]> m)))
      = rates_of (init_with today override
                    (PDict (<[ "exchange_rates" := PDict (delete "usd_ngn" r) ]> m)))).
Proof.
  split.
  - intros today override pd c Hinit.
    pose proof (init_with_inv today override pd c Hinit) as Hmul.
    split; [exact Hmul|]. intros a b Ha Hb.
    exact (py_mul_numeric _ _ _ a b Ha Hb Hmul).
  - exact init_usd_ngn_irrelevant.
Qed.

(** Construction succeeds on every snapshot that is a mapping whose
    [exchange_rates] and [usd_cny] entries are absent. *)
Lemma init_defaults (today : string) (m : gmap string pyval) :
  m !! "exchange_rates" = None ->
  exists c, init today (PDict m) = Ok c
            /\ USD_CNY c = PFloat 7 /\ CNY_NGN c = PInt 216
            /\ USD_NGN c = PFloat (inject_Z 216 * 7).
Proof.
  intros H. unfold init, init_with, py_get, dict_get_or. rewrite H.
  cbn [from_option id mbind res_bind]. rewrite !lookup_empty.
  cbn [from_option id mbind res_bind rate_of CNY_NGN_OVERRIDE].
  unfold dict_get_or. rewrite lookup_empty. cbn.
  eexists. split; [reflexivity|]. cbn. auto.
Qed.

(** The calculators of the examples are the ones [__init__] builds. *)
Lemma init_example : init example_today example_snapshot = Ok example_calculator.
Proof. vm_compute. reflexivity. Qed.

Lemma init_low_price : init example_today low_price_snapshot = Ok low_price_calculator.
Proof. vm_compute. reflexivity. Qed.

Lemma init_empty : init example_today empty_snapshot = Ok empty_calculator.
Proof. vm_compute. reflexivity. Qed.

Lemma init_carbonate :
  init example_today (carbonate_snapshot 10000) = Ok (carbonate_calculator 10000)
  /\ init example_today (carbonate_snapshot 20000) = Ok (carbonate_calculator 20000).
Proof. split; vm_compute; reflexivity. Qed.

Lemma init_bare_tin : init example_today bare_tin_snapshot = Ok bare_tin_calculator.
Proof. vm_compute. reflexivity. Qed.

Lemma resolved_rates_consistent_witness :
  init_with example_today CNY_NGN_OVERRIDE example_snapshot = Ok example_calculator
  /\ py_mul (CNY_NGN example_calculator) (USD_CNY example_calculator)
     = Ok (USD_NGN example_calculator).
Proof.
  split; [vm_compute; reflexivity|].
  apply (proj1 resolved_rates_consistent example_today CNY_NGN_OVERRIDE
               example_snapshot example_calculator).
  vm_compute. reflexivity.
Defined.

(** ** The result table *)

(** C7, as amended.  On every calculator that is well shaped,
    [calculate_all] returns: [smm] is a mapping and, for each strategy, the
    first candidate record to select a value other than [None] selects a
    zero, or a value [float] converts (a float, a boolean, an integer within
    the range of binary64, a string that parses) while, unless that price is
    zero, the rates the strategy multiplies by are numbers within that
    range.  The table lists the nine commodities with all their grade labels
    and the nine source prices, and every grade of a commodity whose
    reference price is unavailable carries the marker [0]. *)
Theorem calculate_all_complete (float_of_str : string -> res Q) (now : string)
    (self : PriceCalculator) :
  well_shaped float_of_str self = true ->
  exists r, calculate_all float_of_str now self = Ok r
    /\ table_labels r = expected_labels
    /\ map fst (source_prices r)
       = ["tin"; "tantalum_oxide"; "monazite"; "titanium"; "zircon";
          "spodumene"; "lithium_carbonate"; "lead"; "zinc"]
    /\ (get_price_default float_of_str self "tin" = Ok None ->
        marked_missing r "tin_ore" = true)
    /\ (get_price_default float_of_str self "tantalum_oxide" = Ok None ->
        marked_missing r "coltan" = true)
    /\ (_get_price float_of_str self "monazite_concentrate" "price_avg"
                   ["monazite"; "monazite_concentrate"] = Ok None ->
        marked_missing r "monazite" = true)
    /\ (get_price_default float_of_str self "titanium_concentrate" = Ok None ->
        marked_missing r "titanium" = true)
    /\ (get_price_default float_of_str self "zircon_sand" = Ok None ->
        marked_missing r "zircon" = true)
    /\ (get_price_default float_of_str self "spodumene" = Ok None ->
        marked_missing r "spodumene" = true)
    /\ (get_price_default float_of_str self "lithium_carbonate" = Ok None ->
        marked_missing r "lepidolite" = true)
    /\ (get_price_default float_of_str self "lead" = Ok None ->
        marked_missing r "lead_ore" = true)
    /\ (get_price_default float_of_str self "zinc" = Ok None ->
        marked_missing r "zinc_ore" = true).
Proof.
  intros Hshape. unfold calculate_all.
  assert (Hsrc : forall key rates, In ([key], rates) (strategy_inputs self) ->
            exists p, get_price_default float_of_str self key = Ok p).
  { intros key rates Hin.
    destruct (strategy_lookup_returns float_of_str self Hshape key [] rates Hin)
      as (p & Hp & _). eauto. }
  destruct (Hsrc "tin" _ ltac:(unfold strategy_inputs; cbn [In]; tauto)) as (p1 & E1).
  destruct (Hsrc "tantalum_oxide" _ ltac:(unfold strategy_inputs; cbn [In]; tauto))
    as (p2 & E2).
  destruct (monazite_source_lookup_returns float_of_str self Hshape) as (p3 & E3).
  destruct (Hsrc "titanium_concentrate" _ ltac:(unfold strategy_inputs; cbn [In]; tauto))
    as (p4 & E4).
  destruct (Hsrc "zircon_sand" _ ltac:(unfold strategy_inputs; cbn [In]; tauto))
    as (p5 & E5).
  destruct (Hsrc "spodumene" _ ltac:(unfold strategy_inputs; cbn [In]; tauto))
    as (p6 & E6).
  destruct (Hsrc "lithium_carbonate" _ ltac:(unfold strategy_inputs; cbn [In]; tauto))
    as (p7 & E7).
  destruct (Hsrc "lead" _ ltac:(unfold strategy_inputs; cbn [In]; tauto)) as (p8 & E8).
  destruct (Hsrc "zinc" _ ltac:(unfold strategy_inputs; cbn [In]; tauto)) as (p9 & E9).
  rewrite E1, E2, E3, E4, E5, E6, E7, E8, E9.
  cbn [mbind res_bind].
  destruct (grade_rows_returns _ tin_grades
              (calc_tin_ore_returns float_of_str self Hshape)) as (r1 & -> & L1 & Z1).
  destruct (grade_rows_returns _ coltan_grades
              (calc_coltan_returns float_of_str self Hshape)) as (r2 & -> & L2 & Z2).
  destruct (grade_rows_returns _ monazite_grades
              (calc_monazite_returns float_of_str self Hshape)) as (r3 & -> & L3 & Z3).
  destruct (grade_rows_returns (fun _ => calc_titanium float_of_str self)
              [("50%", 50%Q)]
              (fun _ => calc_titanium_returns float_of_str self Hshape))
    as (r4 & -> & L4 & Z4).
  destruct (grade_rows_returns (fun _ => calc_zircon float_of_str self)
              [("65%", 65%Q)]
              (fun _ => calc_zircon_returns float_of_str self Hshape))
    as (r5 & -> & L5 & Z5).
  destruct (grade_rows_returns _ spodumene_grades
              (calc_spodumene_returns float_of_str self Hshape)) as (r6 & -> & L6 & Z6).
  destruct (grade_rows_returns _ lepidolite_grades
              (calc_lepidolite_returns float_of_str self Hshape)) as (r7 & -> & L7 & Z7).
  destruct (grade_rows_returns _ lead_grades
              (calc_lead_ore_returns float_of_str self Hshape)) as (r8 & -> & L8 & Z8).
  destruct (grade_rows_returns _ zinc_grades
              (calc_zinc_ore_returns float_of_str self Hshape)) as (r9 & -> & L9 & Z9).
  cbn [mbind res_bind mret res_ret]. eexists. split; [reflexivity|].
  split; [|split; [reflexivity|]].
  { unfold table_labels. cbn [map max_purchase_prices grades fst snd].
    rewrite L1, L2, L3, L4, L5, L6, L7, L8, L9. reflexivity. }
  unfold marked_missing. cbn [max_purchase_prices].
  repeat split; intros Hnone;
    [ apply Z1 | apply Z2 | apply Z3 | apply Z4 | apply Z5
    | apply Z6 | apply Z7 | apply Z8 | apply Z9 ];
    intros g;
    unfold calc_tin_ore, calc_coltan, calc_monazite, calc_titanium, calc_zircon,
      calc_spodumene, calc_lepidolite, calc_lead_ore, calc_zinc_ore;
    rewrite ?E1, ?E2, ?E4, ?E5, ?E6, ?E7, ?E8, ?E9, Hnone; reflexivity.
Qed.

Lemma calculate_all_complete_witness :
  well_shaped sample_float_of_str string_price_calculator = true
  /\ exists r, calculate_all sample_float_of_str example_now string_price_calculator = Ok r
               /\ table_labels r = expected_labels
               /\ marked_missing r "zinc_ore" = true.
Proof.
  split; [vm_compute; reflexivity|].
  destruct (calculate_all_complete sample_float_of_str example_now string_price_calculator
              ltac:(vm_compute; reflexivity))
    as (r & Hr & Hl & _ & _ & _ & _ & _ & _ & _ & _ & _ & Hzinc).
  exists r. split; [exact Hr|]. split; [exact Hl|].
  apply Hzinc. vm_compute. reflexivity.
Defined.

(** A price quoted as a string that parses is priced, not marked missing. *)
Lemma string_price_is_priced :
  (r ← calculate_all sample_float_of_str example_now string_price_calculator;
   mret (grade_price r "tin_ore" "70%", marked_missing r "tin_ore"))
  = Ok (Some 28029, false).
Proof. vm_compute. reflexivity. Qed.

(** C7 as stated fails: a price that is an object, a [null] [smm_prices]
    entry and a [null] exchange rate each make the run raise. *)
Lemma calculate_all_raises_on_malformed :
  (c ← init example_today nested_price_snapshot;
   r ← calculate_all no_str_float example_now c;
   mret (table_labels r)) = Raise TypeError
  /\ (c ← init example_today null_prices_snapshot;
      r ← calculate_all no_str_float example_now c;
      mret (table_labels r)) = Raise AttributeError
  /\ (c ← init example_today null_rate_snapshot;
      r ← calculate_all no_str_float example_now c;
      mret (table_labels r)) = Raise TypeError.
Proof. repeat split; vm_compute; reflexivity. Qed.

(** ** Instances of the conditional statements *)

Lemma calc_tin_ore_formula_witness :
  calc_tin_ore no_str_float example_calculator 70
  = Ok (((30000 * (70 / 100)) * (inject_Z 216 * (7504 # 1000))
         - LOGISTICS_COST_SEA) / VAT_RATE / 1000)%Q.
Proof.
  apply (proj1 (calc_tin_ore_formula no_str_float example_today example_now)).
  - vm_compute. reflexivity.
  - apply usable_of_pos. reflexivity.
  - reflexivity.
Defined.

Lemma calc_coltan_formula_witness :
  calc_coltan no_str_float example_calculator 30
  = Ok (30 * (((65 - COLTAN_AIR_COST) / VAT_RATE / 100)
              * (inject_Z 216 * (7504 # 1000))))%Q.
Proof.
  apply (proj1 (calc_coltan_formula no_str_float example_today)).
  - vm_compute. reflexivity.
  - apply usable_of_pos. reflexivity.
  - reflexivity.
Defined.

(** C5 as stated fails: the price per grade point lies between 817.60 and
    817.61, not at 817.9, and the price at grade 30 lies between 24,528 and
    24,529 and does not round to 24,538. *)
Lemma coltan_example_is_not_24538 :
  exists u x : Q,
    calc_coltan no_str_float example_calculator 1 = Ok u
    /\ calc_coltan no_str_float example_calculator 30 = Ok x
    /\ (81760 # 100 < u)%Q /\ (u < 81761 # 100)%Q
    /\ (24528 < x)%Q /\ (x < 24529)%Q
    /\ py_round0 x <> 24538.
Proof.
  eexists. eexists.
  split; [vm_compute; reflexivity|]. split; [vm_compute; reflexivity|].
  repeat split; try reflexivity. vm_compute. discriminate.
Qed.

Lemma missing_price_gives_sentinel_witness :
  get_price_default no_str_float empty_calculator "tin" = Ok None
  /\ calc_tin_ore no_str_float empty_calculator 70 = Ok 0%Q.
Proof.
  split; [vm_compute; reflexivity|].
  apply (proj1 (missing_price_gives_sentinel no_str_float empty_calculator 70)).
  vm_compute. reflexivity.
Defined.

Lemma monazite_clamp_only_witness :
  (10 * inject_Z 1512 * (30 / 60) - LOGISTICS_COST_SEA <= 0)%Q
  /\ calc_monazite no_str_float low_price_calculator 30 = Ok 0%Q.
Proof.
  split; [vm_compute; discriminate|].
  apply (proj1 (monazite_clamp_only no_str_float example_today)
               low_price_calculator 30%Q 10%Q (inject_Z 1512)).
  - vm_compute. reflexivity.
  - reflexivity.
  - vm_compute. discriminate.
Defined.






(** ** The worked examples in binary64 *)

(** In binary64 the tin example lies within a half of 30,051. *)
Lemma tin_example_binary64_rounds :
  ((30050.5 <? tin_example_binary64)%float
   && (tin_example_binary64 <? 30051.5)%float)%bool = true.
Proof. vm_compute. reflexivity. Qed.

(** In binary64 the coltan example gives between 817.5 and 817.75 per grade
    point and a price within a half of 24,528. *)
Lemma coltan_example_binary64_rounds :
  ((817.5 <? coltan_unit_binary64)%float
   && (coltan_unit_binary64 <? 817.75)%float
   && (24527.5 <? coltan_example_binary64)%float
   && (coltan_example_binary64 <? 24528.5)%float)%bool = true.
Proof. vm_compute. reflexivity. Qed.

(** In binary64 the examples of C8 and C9 keep their strict order. *)
Lemma examples_binary64_strict :
  ((tin_ore_binary64 30000 60 example_usd_ngn_binary64
    <? tin_ore_binary64 30000 70 example_usd_ngn_binary64)
   && (tin_ore_binary64 30000 70 example_usd_ngn_binary64
       <? tin_ore_binary64 30000 75 example_usd_ngn_binary64)
   && (linear_ore_binary64 2000 60 example_usd_ngn_binary64
       <? linear_ore_binary64 2000 70 example_usd_ngn_binary64)
   && (linear_ore_binary64 2000 70 example_usd_ngn_binary64
       <? linear_ore_binary64 2000 75 example_usd_ngn_binary64)
   && (linear_ore_binary64 2800 60 example_usd_ngn_binary64
       <? linear_ore_binary64 2800 70 example_usd_ngn_binary64)
   && (linear_ore_binary64 2800 70 example_usd_ngn_binary64
       <? linear_ore_binary64 2800 75 example_usd_ngn_binary64)
   && (lepidolite_binary64 10000 2.5 7 216
       <? lepidolite_binary64 20000 2.5 7 216))%float
  = true.
Proof. vm_compute. reflexivity. Qed.

(** * Further properties *)

(** ** Lookup, strategies and construction *)

Lemma try_fallbacks_first_present (float_of_str : string -> res Q)
    (s : gmap string pyval) (field : string) (pre post : list string) (k : string) :
  Forall (fun k' => selected s field k' = PNone) pre ->
  selected s field k <> PNone ->
  try_fallbacks float_of_str s field (pre ++ k :: post)%list
  = (if py_ne0 (selected s field k)
     then x ← py_float float_of_str (selected s field k); mret (Some x)
     else mret None).
Proof.
  intros Hpre Hk. induction Hpre as [|k' pre Hk' _ IH].
  - cbn [app try_fallbacks]. rewrite try_key_selected. cbn zeta.
    destruct (selected s field k); try reflexivity. contradiction.
  - cbn [app try_fallbacks]. rewrite try_key_selected. cbn zeta.
    rewrite Hk'. exact IH.
Qed.

(** X1.  [_get_price] is decided by the first candidate, among the key and
    then the fallback keys, whose record selects a value that is not [None]:
    the result is that value converted by [float], or [None] when it equals
    zero; no later candidate is consulted. *)
Theorem first_present_candidate_decides (float_of_str : string -> res Q)
    (self : PriceCalculator) (s : gmap string pyval) (key field : string)
    (fallback_keys pre post : list string) (k : string) :
  smm self = PDict s ->
  key :: fallback_keys = (pre ++ k :: post)%list ->
  Forall (fun k' => selected s field k' = PNone) pre ->
  selected s field k <> PNone ->
  _get_price float_of_str self key field fallback_keys
  = (if py_ne0 (selected s field k)
     then x ← py_float float_of_str (selected s field k); mret (Some x)
     else mret None).
Proof.
  intros Hs Hsplit Hpre Hk.
  rewrite <- (try_fallbacks_first_present float_of_str s field pre post k Hpre Hk).
  rewrite <- Hsplit. unfold _get_price. rewrite Hs. reflexivity.
Qed.

Lemma try_key_nonzero (float_of_str : string -> res Q)
    (s : gmap string pyval) (key field : string) (x : Q) :
  (forall str, selected s field key <> PStr str) ->
  try_key float_of_str s key field = Some (Ok (Some x)) -> ~ (x == 0)%Q.
Proof.
  intros Hstr. rewrite try_key_selected. cbn zeta.
  destruct (selected s field key) as [|b|z|q|str| |]; simpl; try discriminate.
  - destruct b; simpl; intros [= <-]; discriminate.
  - destruct (z =? 0) eqn:E; simpl; intros [= <-].
    apply Z.eqb_neq in E. unfold Qeq. simpl. lia.
  - destruct (Qeq_bool q 0) eqn:E; simpl; intros [= <-].
    apply Qeq_bool_neq. exact E.
  - exfalso. eapply Hstr. reflexivity.
Qed.

(** X2.  When no consulted record selects a string, a price [_get_price]
    returns is never zero. *)
Theorem get_price_never_zero (float_of_str : string -> res Q)
    (self : PriceCalculator) (s : gmap string pyval) (key field : string)
    (fallback_keys : list string) (x : Q) :
  smm self = PDict s ->
  Forall (fun k => forall str, selected s field k <> PStr str) (key :: fallback_keys) ->
  _get_price float_of_str self key field fallback_keys = Ok (Some x) ->
  ~ (x == 0)%Q.
Proof.
  intros Hs Hall. unfold _get_price. rewrite Hs.
  change (try_fallbacks float_of_str s field (key :: fallback_keys) = Ok (Some x)
          -> ~ (x == 0)%Q).
  induction Hall as [|k ks Hk _ IH]; cbn [try_fallbacks]; [discriminate|].
  destruct (try_key float_of_str s k field) as [r|] eqn:E; [|exact IH].
  intros ->. exact (try_key_nonzero float_of_str s k field x Hk E).
Qed.

Section StrategyProperties.
Variable float_of_str : string -> res Q.

Lemma missing_key_selects_nothing (s : gmap string pyval) (field key : string) :
  s !! key = None -> selected s field key = PNone.
Proof.
  intros H. unfold selected, dict_get_or. rewrite H. cbn [from_option id].
  unfold py_or, dict_get. rewrite !lookup_empty. reflexivity.
Qed.

(** X4.  When monazite is quoted under the key ["monazite"] only,
    [calculate_all] records [None] as the source price of monazite, while
    [calc_monazite] finds the quote through its fallback key and prices
    every grade that covers the logistics cost. *)
Theorem monazite_source_price_ignores_fallback (now : string)
    (self : PriceCalculator) (s : gmap string pyval) (x : Q) (r : Result) :
  smm self = PDict s ->
  s !! "monazite_concentrate" = None ->
  usable_value (selected s "price_avg" "monazite") = Some x ->
  calculate_all float_of_str now self = Ok r ->
  price <$> assoc "monazite" (source_prices r) = Some None
  /\ _get_price float_of_str self "monazite_concentrate" "price_avg"
                ["monazite"; "monazite_concentrate"] = Ok (Some x)
  /\ forall grade fx : Q,
       as_float (USD_NGN self) = Some fx ->
       (0 < x * fx * (grade / 60) - LOGISTICS_COST_SEA)%Q ->
       calc_monazite float_of_str self grade
       = Ok ((x * fx * (grade / 60) - LOGISTICS_COST_SEA) / VAT_RATE / 1000)%Q.
Proof.
  intros Hs Hmiss Hx Hall.
  pose proof (missing_key_selects_nothing s "price_avg" _ Hmiss) as Hnone.
  assert (Hsrc : get_price_default float_of_str self "monazite_concentrate" = Ok None).
  { unfold get_price_default, _get_price. rewrite Hs, try_key_selected. cbn zeta.
    rewrite Hnone. reflexivity. }
  assert (Hget : _get_price float_of_str self "monazite_concentrate" "price_avg"
                   ["monazite"; "monazite_concentrate"] = Ok (Some x)).
  { unfold _get_price. rewrite Hs, try_key_selected. cbn zeta. rewrite Hnone.
    cbn [is_not_None try_fallbacks]. rewrite try_key_selected. cbn zeta.
    destruct (usable_converts float_of_str _ _ Hx) as (-> & -> & ->). reflexivity. }
  split; [|split; [exact Hget|]].
  - unfold calculate_all in Hall.
    do 2 (apply bind_Ok in Hall as (? & _ & Hall)).
    apply bind_Ok in Hall as (sp & Hsp & Hall).
    rewrite Hsrc in Hsp. injection Hsp as <-.
    do 15 (apply bind_Ok in Hall as (? & _ & Hall)).
    injection Hall as <-. reflexivity.
  - intros grade fx Hfx Hpos. unfold calc_monazite. rewrite Hget.
    cbn [mbind res_bind].
    assert (Hx0 : ~ (x == 0)%Q).
    { intros E. rewrite E in Hpos. q_consts. lra. }
    rewrite with_price_usable by exact Hx0.
    rewrite (py_float_mul_num _ _ _ Hfx). cbn [mbind res_bind].
    destruct (Qle_bool _ 0) eqn:E; [|reflexivity].
    apply Qle_bool_iff in E. q_consts. lra.
Qed.

(** X7.  With the same rate, not negative, and a grade within 0..100, a
    higher positive reference price never gives a lower ceiling, for tin,
    lead, zinc, coltan, spodumene, zircon and titanium; prices and rate are
    of moderate size. *)
Theorem ceilings_monotone_in_reference_price (self self' : PriceCalculator)
    (grade p p' fx : Q) :
  same_rates self self' ->
  (0 < p)%Q -> (p <= p')%Q -> (p' <= googol)%Q -> moderate fx ->
  (0 <= grade)%Q -> (grade <= 100)%Q ->
  (get_price_default float_of_str self "tin" = Ok (Some p) ->
   get_price_default float_of_str self' "tin" = Ok (Some p') ->
   as_float (USD_NGN self) = Some fx ->
   le_res (calc_tin_ore float_of_str self grade) (calc_tin_ore float_of_str self' grade))
  /\ (get_price_default float_of_str self "lead" = Ok (Some p) ->
      get_price_default float_of_str self' "lead" = Ok (Some p') ->
      as_float (USD_NGN self) = Some fx ->
      le_res (calc_lead_ore float_of_str self grade)
             (calc_lead_ore float_of_str self' grade))
  /\ (get_price_default float_of_str self "zinc" = Ok (Some p) ->
      get_price_default float_of_str self' "zinc" = Ok (Some p') ->
      as_float (USD_NGN self) = Some fx ->
      le_res (calc_zinc_ore float_of_str self grade)
             (calc_zinc_ore float_of_str self' grade))
  /\ (get_price_default float_of_str self "tantalum_oxide" = Ok (Some p) ->
      get_price_default float_of_str self' "tantalum_oxide" = Ok (Some p') ->
      as_float (USD_NGN self) = Some fx ->
      le_res (calc_coltan float_of_str self grade)
             (calc_coltan float_of_str self' grade))
  /\ (get_price_default float_of_str self "spodumene" = Ok (Some p) ->
      get_price_default float_of_str self' "spodumene" = Ok (Some p') ->
      as_float (USD_NGN self) = Some fx ->
      le_res (calc_spodumene float_of_str self grade)
             (calc_spodumene float_of_str self' grade))
  /\ (get_price_default float_of_str self "zircon_sand" = Ok (Some p) ->
      get_price_default float_of_str self' "zircon_sand" = Ok (Some p') ->
      as_float (USD_NGN self) = Some fx ->
      le_res (calc_zircon float_of_str self) (calc_zircon float_of_str self'))
  /\ (get_price_default float_of_str self "titanium_concentrate" = Ok (Some p) ->
      get_price_default float_of_str self' "titanium_concentrate" = Ok (Some p') ->
      as_float (CNY_NGN self) = Some fx ->
      le_res (calc_titanium float_of_str self) (calc_titanium float_of_str self')).
Proof.
  intros (HN & HC & HY) Hp Hpp _ [Hfx _] Hg _.
  assert (Hgf : (0 <= grade * fx)%Q) by (apply Qmult_le_0_compat; assumption).
  repeat split; intros Hget Hget' Hrate;
    unfold calc_tin_ore, calc_lead_ore, calc_zinc_ore, calc_coltan, calc_spodumene,
      calc_zircon, calc_titanium;
    rewrite Hget, Hget', ?HN, ?HY; cbn [mbind res_bind];
    rewrite !with_price_usable by (apply usable_of_pos; lra);
    rewrite !(py_float_mul_num _ _ _ Hrate); cbn [mbind res_bind mret res_ret le_res];
    q_consts; nra.
Qed.

End StrategyProperties.


Lemma init_on_mapping (today : string) (m r : gmap string pyval) :
  raw_rates m = PDict r ->
  init today (PDict m)
  = (n ← py_mul (PInt 216) (resolved_usd_cny r);
     mret {| price_data := PDict m; date := dict_get_or m "date" (PStr today);
             USD_NGN := n; USD_CNY := resolved_usd_cny r; CNY_NGN := PInt 216;
             CNY_NGN_SOURCE := "Manual Override";
             smm := dict_get_or m "smm_prices" (PDict ∅) |}).
Proof.
  unfold raw_rates. intros Hr. unfold init, init_with, py_get.
  cbn [mbind res_bind]. rewrite Hr. reflexivity.
Qed.

(** X9.  What [__init__] does on each shape of snapshot: [AttributeError]
    when the snapshot or its [exchange_rates] entry is not a mapping;
    [TypeError] when [usd_cny] resolves to [None] or to a mapping; otherwise
    a calculator with that [USD_CNY], [CNY_NGN = 216] and the [smm_prices]
    entry (or an empty mapping). *)
Theorem construction_outcome (today : string) :
  (forall pd, (forall m, pd <> PDict m) -> init today pd = Raise AttributeError)
  /\ (forall m, (forall r, raw_rates m <> PDict r) ->
        init today (PDict m) = Raise AttributeError)
  /\ (forall m r, raw_rates m = PDict r ->
        match resolved_usd_cny r with
        | PNone | PDict _ => init today (PDict m) = Raise TypeError
        | u => exists c, init today (PDict m) = Ok c
                         /\ USD_CNY c = u /\ CNY_NGN c = PInt 216
                         /\ smm c = dict_get_or m "smm_prices" (PDict ∅)
        end).
Proof.
  split; [|split].
  - intros pd Hpd. destruct pd; try reflexivity. exfalso. eapply Hpd. reflexivity.
  - intros m Hm. unfold init, init_with, py_get. cbn [mbind res_bind].
    fold (raw_rates m). destruct (raw_rates m); try reflexivity.
    exfalso. eapply Hm. reflexivity.
  - intros m r Hr. rewrite (init_on_mapping today m r Hr).
    destruct (resolved_usd_cny r); cbn; try reflexivity; eexists; eauto.
Qed.

(** X10.  With the configured override, every constructed calculator has
    [CNY_NGN = 216] from source ["Manual Override"], and the resolved rates
    (or the exception) do not depend on what the snapshot stores under
    [cny_ngn]. *)
Theorem override_fixes_cny_ngn :
  (forall (today : string) (pd : pyval) (c : PriceCalculator),
      init today pd = Ok c ->
      CNY_NGN c = PInt 216 /\ CNY_NGN_SOURCE c = "Manual Override")
  /\ (forall (today : string) (m r : gmap string pyval) (v : pyval),
      rates_of (init today
                  (PDict (<[ "exchange_rates" := PDict (<[ "cny_ngn" := v ]> r) ]> m)))
      = rates_of (init today
                    (PDict (<[ "exchange_rates" := PDict (delete "cny_ngn" r) ]> m)))).
Proof.
  split.
  - intros today pd c H. unfold init, init_with in H.
    do 5 (apply bind_Ok in H as (? & _ & H)).
    cbn [CNY_NGN_OVERRIDE] in H.
    apply bind_Ok in H as (? & _ & H). apply bind_Ok in H as (? & _ & H).
    injection H as <-. split; reflexivity.
  - intros today m r v.
    rewrite (init_on_mapping today _ (<[ "cny_ngn" := v ]> r))
      by (unfold raw_rates, dict_get_or; rewrite lookup_insert_eq; reflexivity).
    rewrite (init_on_mapping today _ (delete "cny_ngn" r))
      by (unfold raw_rates, dict_get_or; rewrite lookup_insert_eq; reflexivity).
    unfold resolved_usd_cny, dict_get_or.
    repeat (rewrite lookup_insert_ne by done).
    repeat (rewrite lookup_delete_ne by done).
    destruct (py_mul _ _); reflexivity.
Qed.

Lemma py_float_mul_non_numeric (x : Q) (v : pyval) :
  as_float v = None -> py_float_mul x v = Raise TypeError.
Proof. destruct v; simpl; try discriminate; reflexivity. Qed.

(** X11.  A strategy whose reference price is usable raises [TypeError]
    when the rate it multiplies by is not a number. *)
Theorem strategies_raise_on_non_numeric_rate (float_of_str : string -> res Q)
    (self : PriceCalculator) (grade p : Q) :
  ~ (p == 0)%Q ->
  (as_float (USD_NGN self) = None ->
     (get_price_default float_of_str self "tin" = Ok (Some p) ->
      calc_tin_ore float_of_str self grade = Raise TypeError)
     /\ (get_price_default float_of_str self "tantalum_oxide" = Ok (Some p) ->
         calc_coltan float_of_str self grade = Raise TypeError)
     /\ (_get_price float_of_str self "monazite_concentrate" "price_avg"
                    ["monazite"; "monazite_concentrate"] = Ok (Some p) ->
         calc_monazite float_of_str self grade = Raise TypeError)
     /\ (get_price_default float_of_str self "zircon_sand" = Ok (Some p) ->
         calc_zircon float_of_str self = Raise TypeError)
     /\ (get_price_default float_of_str self "spodumene" = Ok (Some p) ->
         calc_spodumene float_of_str self grade = Raise TypeError)
     /\ (get_price_default float_of_str self "lead" = Ok (Some p) ->
         calc_lead_ore float_of_str self grade = Raise TypeError)
     /\ (get_price_default float_of_str self "zinc" = Ok (Some p) ->
         calc_zinc_ore float_of_str self grade = Raise TypeError))
  /\ (as_float (CNY_NGN self) = None ->
      get_price_default float_of_str self "titanium_concentrate" = Ok (Some p) ->
      calc_titanium float_of_str self = Raise TypeError)
  /\ (as_float (USD_CNY self) = None ->
      get_price_default float_of_str self "lithium_carbonate" = Ok (Some p) ->
      calc_lepidolite float_of_str self grade = Raise TypeError).
Proof.
  intros Hp.
  repeat split; intros;
    unfold calc_tin_ore, calc_coltan, calc_monazite, calc_zircon, calc_spodumene,
      calc_lead_ore, calc_zinc_ore, calc_titanium, calc_lepidolite;
    match goal with H : _ = Ok (Some p) |- _ => rewrite H end;
    cbn [mbind res_bind];
    rewrite with_price_usable by exact Hp;
    rewrite py_float_mul_non_numeric by assumption; reflexivity.
Qed.

(** X12.  A [usd_cny] quoted as a string passes construction: [USD_NGN]
    becomes that string repeated 216 times, and [calc_tin_ore] raises
    [TypeError] as soon as a tin price is usable. *)
Theorem string_rate_passes_construction (float_of_str : string -> res Q)
    (today : string) (m r : gmap string pyval) (quote : string) :
  raw_rates m = PDict r ->
  resolved_usd_cny r = PStr quote ->
  exists c, init today (PDict m) = Ok c
            /\ USD_NGN c = PStr (str_repeat quote 216)
            /\ forall grade p : Q,
                 get_price_default float_of_str c "tin" = Ok (Some p) ->
                 ~ (p == 0)%Q ->
                 calc_tin_ore float_of_str c grade = Raise TypeError.
Proof.
  intros Hr Hq. rewrite (init_on_mapping today m r Hr), Hq.
  eexists. split; [reflexivity|]. split; [reflexivity|].
  intros grade p Hget Hp. unfold calc_tin_ore. rewrite Hget. cbn [mbind res_bind].
  rewrite with_price_usable by exact Hp. reflexivity.
Qed.

(** ** Files *)

(** *** Order of names *)

Lemma ascii_compare_refl (a : ascii) : Ascii.compare a a = Eq.
Proof. unfold Ascii.compare. apply N.compare_refl. Qed.

Lemma string_compare_refl (s : string) : String.compare s s = Eq.
Proof. induction s as [|a s IH]; [reflexivity|]. simpl. rewrite ascii_compare_refl. exact IH. Qed.

Lemma string_leb_refl (s : string) : String.leb s s = true.
Proof. unfold String.leb. rewrite string_compare_refl. reflexivity. Qed.

Lemma string_compare_lt_trans (s1 s2 s3 : string) :
  String.compare s1 s2 = Lt -> String.compare s2 s3 = Lt -> String.compare s1 s3 = Lt.
Proof.
  revert s2 s3. induction s1 as [|a s1 IH]; intros [|b s2] [|c s3]; simpl;
    try discriminate; try reflexivity.
  unfold Ascii.compare.
  destruct (N.compare_spec (N_of_ascii a) (N_of_ascii b)) as [Hab|Hab|Hab];
    destruct (N.compare_spec (N_of_ascii b) (N_of_ascii c)) as [Hbc|Hbc|Hbc];
    try discriminate; intros H1 H2.
  - rewrite Hab, Hbc, N.compare_refl. eapply IH; eassumption.
  - rewrite Hab. apply N.compare_lt_iff in Hbc. rewrite Hbc. reflexivity.
  - rewrite <- Hbc. apply N.compare_lt_iff in Hab. rewrite Hab. reflexivity.
  - assert (H : (N_of_ascii a < N_of_ascii c)%N) by lia.
    apply N.compare_lt_iff in H. rewrite H. reflexivity.
Qed.

Lemma string_leb_trans (s1 s2 s3 : string) :
  String.leb s1 s2 = true -> String.leb s2 s3 = true -> String.leb s1 s3 = true.
Proof.
  unfold String.leb.
  destruct (String.compare s1 s2) eqn:E12; try discriminate;
    destruct (String.compare s2 s3) eqn:E23; try discriminate; intros _ _.
  - apply String.compare_eq_iff in E12, E23. subst. rewrite string_compare_refl. reflexivity.
  - apply String.compare_eq_iff in E12. subst. rewrite E23. reflexivity.
  - apply String.compare_eq_iff in E23. subst. rewrite E12. reflexivity.
  - rewrite (string_compare_lt_trans _ _ _ E12 E23). reflexivity.
Qed.

(** *** The head of the descending sort is the greatest name *)

Lemma greatest_unique (m m' : string) (l : list string) :
  greatest m l -> greatest m' l -> m = m'.
Proof.
  intros [Hm Hmax] [Hm' Hmax']. apply String.leb_antisym; auto.
Qed.

Lemma insert_desc_head (x : string) (l : list string) :
  hd "" (insert_desc x l)
  = match l with
    | [] => x
    | y :: _ => if String.leb y x then x else y
    end.
Proof. destruct l as [|y l]; [reflexivity|]. simpl. destruct (String.leb y x); reflexivity. Qed.

Lemma sort_desc_nil (l : list string) : sort_desc l = [] -> l = [].
Proof.
  destruct l as [|x l]; [reflexivity|]. unfold sort_desc. simpl.
  destruct (foldr insert_desc [] l) as [|y l']; simpl; [discriminate|].
  destruct (String.leb y x); discriminate.
Qed.

Lemma sort_desc_greatest (l : list string) :
  l <> [] -> greatest (hd "" (sort_desc l)) l.
Proof.
  induction l as [|x l IH]; [congruence|]. intros _.
  change (sort_desc (x :: l)) with (insert_desc x (sort_desc l)).
  rewrite insert_desc_head.
  destruct (sort_desc l) as [|y sl] eqn:E.
  - apply sort_desc_nil in E. subst l. split; [left; reflexivity|].
    intros z [<- | []]. apply string_leb_refl.
  - assert (Hl : l <> []) by (intros ->; discriminate).
    destruct (IH Hl) as [Hy Hmax]. cbn [hd] in Hy, Hmax.
    destruct (String.leb y x) eqn:Eyx.
    + split; [left; reflexivity|]. intros z [<- | Hz]; [apply string_leb_refl|].
      eapply string_leb_trans; [apply Hmax, Hz | exact Eyx].
    + split; [right; exact Hy|]. intros z [Hz | Hz]; [subst z|apply Hmax, Hz].
      destruct (String.leb_total x y) as [H | H]; [exact H | congruence].
Qed.

Lemma greatest_perm (m : string) (l l' : list string) :
  l ≡ₚ l' -> greatest m l -> greatest m l'.
Proof.
  intros Hp [Hm Hmax]. split.
  - apply list_elem_of_In. rewrite <- Hp. apply list_elem_of_In, Hm.
  - intros x Hx. apply Hmax. apply list_elem_of_In. rewrite Hp.
    apply list_elem_of_In, Hx.
Qed.

Lemma sort_desc_head_perm (l l' : list string) :
  l ≡ₚ l' -> hd "" (sort_desc l) = hd "" (sort_desc l').
Proof.
  intros Hp. destruct l as [|x l].
  - apply Permutation_nil_l in Hp. subst. reflexivity.
  - assert (Hl' : l' <> []).
    { intros ->. apply Permutation_nil_r in Hp. discriminate. }
    eapply greatest_unique.
    + eapply greatest_perm; [exact Hp|]. apply sort_desc_greatest. discriminate.
    + apply sort_desc_greatest, Hl'.
Qed.

(** *** Names *)

Lemma substring_whole (s : string) : substring 0 (String.length s) s = s.
Proof. induction s as [|a s IH]; [reflexivity|]. simpl. rewrite IH. reflexivity. Qed.

Lemma substring_app_r (s suf : string) :
  substring (String.length s) (String.length suf) (s ++ suf) = suf.
Proof. induction s as [|a s IH]; [apply substring_whole | exact IH]. Qed.

Lemma string_length_app (a b : string) :
  String.length (a ++ b) = (String.length a + String.length b)%nat.
Proof.
  induction a as [|x a IH]; [reflexivity|].
  change (S (String.length (a ++ b)) = S (String.length a + String.length b)).
  rewrite IH. reflexivity.
Qed.

Lemma endswith_app (s suf : string) : endswith (s ++ suf) suf = true.
Proof.
  unfold endswith. rewrite string_length_app.
  replace (String.length s + String.length suf - String.length suf)%nat
    with (String.length s) by lia.
  rewrite substring_app_r, String.eqb_refl, andb_true_r.
  apply Nat.leb_le. lia.
Qed.

Lemma string_app_assoc (a b c : string) : (a ++ b) ++ c = a ++ (b ++ c).
Proof.
  induction a as [|x a IH]; [reflexivity|].
  change (String x ((a ++ b) ++ c) = String x (a ++ (b ++ c))). rewrite IH. reflexivity.
Qed.

Lemma price_file_name_matches (day : string) :
  is_price_file ("prices_" ++ day ++ ".json") = true.
Proof.
  unfold is_price_file. apply andb_true_iff. split; [vm_compute; reflexivity|].
  rewrite <- (string_app_assoc "prices_" day ".json"). apply endswith_app.
Qed.

Lemma results_file_name_differs (day : string) :
  is_price_file ("max_purchase_prices_" ++ day ++ ".json") = false.
Proof. vm_compute. reflexivity. Qed.

Lemma In_listdir (d : gmap string file) (name : string) :
  In name (listdir d) <-> is_Some (d !! name).
Proof.
  unfold listdir. rewrite <- list_elem_of_In, list_elem_of_fmap. split.
  - intros ([n f] & -> & H). apply elem_of_map_to_list in H. eauto.
  - intros (f & H). exists (name, f). split; [reflexivity|].
    apply elem_of_map_to_list, H.
Qed.

Lemma filter_perm (p : string -> bool) (l l' : list string) :
  l ≡ₚ l' -> List.filter p l ≡ₚ List.filter p l'.
Proof.
  induction 1 as [|x l l' _ IH|x y l|l1 l2 l3 _ IH1 _ IH2]; simpl.
  - reflexivity.
  - destruct (p x); [constructor|]; exact IH.
  - destruct (p x), (p y); try reflexivity. constructor.
  - etransitivity; eassumption.
Qed.

Lemma listdir_insert_fresh (d : gmap string file) (name : string) (f : file) :
  d !! name = None -> listdir (<[ name := f ]> d) ≡ₚ name :: listdir d.
Proof.
  intros H. unfold listdir. rewrite (map_to_list_insert d name f H). reflexivity.
Qed.

Lemma price_files_insert_other (d : gmap string file) (name : string) (f : file) :
  is_price_file name = false ->
  List.filter is_price_file (listdir (<[ name := f ]> d))
  ≡ₚ List.filter is_price_file (listdir d).
Proof.
  intros Hn.
  assert (Hfresh : forall d0 f0, d0 !! name = None ->
            List.filter is_price_file (listdir (<[ name := f0 ]> d0))
            ≡ₚ List.filter is_price_file (listdir d0)).
  { intros d0 f0 H0. rewrite (filter_perm _ _ _ (listdir_insert_fresh d0 name f0 H0)).
    simpl. rewrite Hn. reflexivity. }
  destruct (d !! name) as [f0|] eqn:E; [|apply Hfresh, E].
  rewrite <- (insert_delete_eq d name f).
  rewrite <- (insert_delete_id d name f0 E) at 2.
  rewrite !Hfresh by apply lookup_delete_eq. reflexivity.
Qed.

Section FileProperties.
Variable float_of_str : string -> res Q.
Variable today now : string.
Variable py_str : pyval -> string.
Variable json_of_result : Result -> pyval.
Variable print_results : Result -> res Datatypes.unit.
Variable json_key : pyval -> string.

Lemma load_from_listing (d : gmap string file) (name : string) (f : file) :
  d !! ("prices_" ++ today ++ ".json") = None ->
  d !! name = Some f ->
  greatest name (List.filter is_price_file (listdir d)) ->
  load_latest_prices today (Some d) = json_load f.
Proof.
  intros Htoday Hname Hg. unfold load_latest_prices. cbn [mbind option_bind].
  rewrite Htoday.
  destruct (List.filter is_price_file (listdir d)) as [|x l] eqn:E.
  - destruct Hg as [[] _].
  - rewrite <- (greatest_unique _ _ _ Hg (sort_desc_greatest (x :: l) ltac:(discriminate))).
    rewrite Hname. reflexivity.
Qed.

Lemma load_today (d : gmap string file) (f : file) :
  d !! ("prices_" ++ today ++ ".json") = Some f ->
  load_latest_prices today (Some d) = json_load f.
Proof.
  intros H. unfold load_latest_prices. cbn [mbind option_bind]. rewrite H. reflexivity.
Qed.

Lemma load_no_price_file (d : gmap string file) :
  (forall name, is_Some (d !! name) -> is_price_file name = false) ->
  load_latest_prices today (Some d) = Done PNone.
Proof.
  intros Hnone. unfold load_latest_prices. cbn [mbind option_bind].
  destruct (d !! ("prices_" ++ today ++ ".json")) as [f|] eqn:E.
  - pose proof (price_file_name_matches today) as Hm.
    rewrite (Hnone _ (ex_intro _ f E)) in Hm. discriminate.
  - destruct (List.filter is_price_file (listdir d)) as [|x l] eqn:El; [reflexivity|].
    assert (Hx : In x (List.filter is_price_file (listdir d)))
      by (rewrite El; left; reflexivity).
    apply filter_In in Hx as [Hx Hpx]. apply In_listdir in Hx.
    rewrite (Hnone x Hx) in Hpx. discriminate.
Qed.

(** X13.  [load_latest_prices] reads today's file when it exists; otherwise
    the price file with the greatest name; it returns [None] when the
    directory has no price file and raises [FileNotFoundError] when the
    directory does not exist. *)
Theorem load_latest_prices_selection (d : gmap string file) :
  (forall f, d !! ("prices_" ++ today ++ ".json") = Some f ->
     load_latest_prices today (Some d) = json_load f)
  /\ (d !! ("prices_" ++ today ++ ".json") = None ->
      forall name f,
        d !! name = Some f -> is_price_file name = true ->
        (forall other, is_Some (d !! other) -> is_price_file other = true ->
           String.leb other name = true) ->
        load_latest_prices today (Some d) = json_load f)
  /\ ((forall name, is_Some (d !! name) -> is_price_file name = false) ->
      load_latest_prices today (Some d) = Done PNone)
  /\ load_latest_prices today None = Fail FileNotFoundError.
Proof.
  split; [|split; [|split]].
  - apply load_today.
  - intros Htoday name f Hname Hmatch Hmax.
    apply (load_from_listing d name f Htoday Hname). split.
    + apply filter_In. split; [apply In_listdir; eauto | exact Hmatch].
    + intros x Hx. apply filter_In in Hx as [Hx Hpx]. apply Hmax; [|exact Hpx].
      apply In_listdir, Hx.
  - apply load_no_price_file.
  - reflexivity.
Qed.

Lemma load_insert_other (d : gmap string file) (name : string) (f : file) :
  is_price_file name = false ->
  load_latest_prices today (Some (<[ name := f ]> d)) = load_latest_prices today (Some d).
Proof.
  intros Hn.
  assert (Hne : forall x, is_price_file x = true -> <[ name := f ]> d !! x = d !! x).
  { intros x Hx. apply lookup_insert_ne. intros ->. congruence. }
  unfold load_latest_prices. cbn [mbind option_bind].
  rewrite (Hne _ (price_file_name_matches today)).
  destruct (d !! ("prices_" ++ today ++ ".json")); [reflexivity|].
  pose proof (price_files_insert_other d name f Hn) as Hp.
  destruct (List.filter is_price_file (listdir d)) as [|x l] eqn:E.
  - apply Permutation_nil_r in Hp. rewrite Hp. reflexivity.
  - destruct (List.filter is_price_file (listdir (<[ name := f ]> d))) as [|x' l'] eqn:E'.
    + apply Permutation_nil_l in Hp. discriminate.
    + rewrite (sort_desc_head_perm _ _ Hp).
      rewrite Hne; [reflexivity|].
      destruct (sort_desc_greatest (x :: l) ltac:(discriminate)) as [Hin _].
      assert (Hin' : In (hd "" (sort_desc (x :: l)))
                        (List.filter is_price_file (listdir d)))
        by (rewrite E; exact Hin).
      apply filter_In in Hin' as [_ Hin']. exact Hin'.
Qed.

Lemma open_w_inv (fs fs' : filesystem) (name : string) (content : file) :
  open_w fs name content = Done fs' ->
  exists d, fs = Some d /\ fs' = Some (<[ name := content ]> d).
Proof.
  unfold open_w. destruct (has_char _ name); [discriminate|].
  destruct fs as [d|]; [|discriminate].
  destruct (has_char _ name); [destruct (d !! _); discriminate|]. intros [= <-]. eauto.
Qed.

Lemma open_w_again (fs fs' : filesystem) (name : string) (content : file) :
  open_w fs name content = Done fs' -> open_w fs' name content = Done fs'.
Proof.
  intros H. destruct (open_w_inv _ _ _ _ H) as (d & -> & ->). revert H.
  unfold open_w. destruct (has_char _ name); [discriminate|].
  destruct (has_char _ name); [destruct (d !! _); discriminate|]. intros _.
  rewrite insert_insert_eq. reflexivity.
Qed.

Lemma save_results_keeps_input (results : Result) (fs fs' : filesystem) :
  save_results py_str json_of_result results fs = Done fs' ->
  load_latest_prices today fs' = load_latest_prices today fs.
Proof.
  unfold save_results. intros H.
  destruct (open_w_inv _ _ _ _ H) as (d & -> & ->).
  apply load_insert_other, results_file_name_differs.
Qed.

(** X14.  After [save_results] the directory holds the result under
    [max_purchase_prices_<date>.json]; no price file has changed and
    [load_latest_prices] returns what it returned before. *)
Theorem results_never_become_input (results : Result) (fs fs' : filesystem) :
  save_results py_str json_of_result results fs = Done fs' ->
  load_latest_prices today fs' = load_latest_prices today fs
  /\ (forall name, is_price_file name = true ->
        fs' ≫= (.!! name) = fs ≫= (.!! name))
  /\ fs' ≫= (.!! ("max_purchase_prices_" ++ fstr py_str (result_date results) ++ ".json"))
     = Some (Json (json_of_result results)).
Proof.
  unfold save_results. intros H.
  destruct (open_w_inv _ _ _ _ H) as (d & -> & ->).
  pose proof (results_file_name_differs (fstr py_str (result_date results))) as Hn.
  split; [apply load_insert_other, Hn|]. split.
  - intros name Hname. cbn [mbind option_bind]. apply lookup_insert_ne.
    intros E. rewrite E in Hn. congruence.
  - cbn [mbind option_bind]. apply lookup_insert_eq.
Qed.

(** X15.  Running [main] again on the directory it left, with the same
    clock, gives the same outcome and leaves the directory as it is. *)
Theorem main_idempotent (fs fs' : filesystem) (out : io Datatypes.unit) :
  main float_of_str today now py_str json_of_result print_results fs = (fs', out) ->
  main float_of_str today now py_str json_of_result print_results fs' = (fs', out).
Proof.
  intros H.
  destruct (load_latest_prices today fs) as [pd|e] eqn:Eload.
  2:{ unfold main in H |- *. rewrite Eload in H. injection H as <- <-.
      rewrite Eload. reflexivity. }
  destruct (negb (truthy pd)) eqn:Et.
  { unfold main in H |- *. rewrite Eload, Et in H. injection H as <- <-.
    rewrite Eload, Et. reflexivity. }
  destruct (init today pd) as [c|e] eqn:Ei.
  2:{ unfold main in H |- *. rewrite Eload, Et, Ei in H. injection H as <- <-.
      rewrite Eload, Et, Ei. reflexivity. }
  destruct (calculate_all float_of_str now c) as [r|e] eqn:Ec.
  2:{ unfold main in H |- *. rewrite Eload, Et, Ei, Ec in H. injection H as <- <-.
      rewrite Eload, Et, Ei, Ec. reflexivity. }
  destruct (print_results r) as [u|e] eqn:Ep.
  2:{ unfold main in H |- *. rewrite Eload, Et, Ei, Ec, Ep in H. injection H as <- <-.
      rewrite Eload, Et, Ei, Ec, Ep. reflexivity. }
  destruct (save_results py_str json_of_result r fs) as [fs1|e] eqn:Es.
  2:{ unfold main in H |- *. rewrite Eload, Et, Ei, Ec, Ep, Es in H. injection H as <- <-.
      rewrite Eload, Et, Ei, Ec, Ep, Es. reflexivity. }
  unfold main in H |- *. rewrite Eload, Et, Ei, Ec, Ep, Es in H. injection H as <- <-.
  pose proof (save_results_keeps_input r fs fs1 Es) as Hload.
  rewrite Hload, Eload, Et, Ei, Ec, Ep.
  unfold save_results in Es |- *. rewrite (open_w_again _ _ _ _ Es). reflexivity.
Qed.

(** X16.  Whatever its outcome, [main] never changes an entry whose name
    does not start with [max_purchase_prices_], and the snapshot
    [load_latest_prices] selects is the same afterwards. *)
Theorem main_changes_only_a_results_file (fs fs' : filesystem) (out : io Datatypes.unit) :
  main float_of_str today now py_str json_of_result print_results fs = (fs', out) ->
  (forall name, startswith name "max_purchase_prices_" = false ->
        fs' ≫= (.!! name) = fs ≫= (.!! name))
  /\ load_latest_prices today fs' = load_latest_prices today fs.
Proof.
  intros H. unfold main in H.
  destruct (load_latest_prices today fs) as [pd|e] eqn:Eload;
    [|injection H as <- <-; auto].
  destruct (negb (truthy pd)); [injection H as <- <-; auto|].
  destruct (init today pd) as [c|e]; [|injection H as <- <-; auto].
  destruct (calculate_all float_of_str now c) as [r|e]; [|injection H as <- <-; auto].
  destruct (print_results r) as [u|e]; [|injection H as <- <-; auto].
  destruct (save_results py_str json_of_result r fs) as [fs1|e] eqn:Es;
    [|injection H as <- <-; auto].
  injection H as <- <-.
  pose proof (save_results_keeps_input r fs fs1 Es) as Hload.
  split; [|congruence].
  unfold save_results in Es. destruct (open_w_inv _ _ _ _ Es) as (d & -> & ->).
  intros name Hname. cbn [mbind option_bind]. apply lookup_insert_ne.
  intros E. rewrite <- E in Hname. vm_compute in Hname. discriminate.
Qed.

(** X17.  [main] raises [FileNotFoundError] when the directory does not
    exist, returns without computing when there is no price file or when
    today's snapshot is empty (falsy), and raises [JSONDecodeError] when
    today's file does not parse, whatever older files exist. *)
Theorem main_without_snapshot :
  main float_of_str today now py_str json_of_result print_results None
  = (None, Fail FileNotFoundError)
  /\ (forall d : gmap string file,
        (forall name, is_Some (d !! name) -> is_price_file name = false) ->
        main float_of_str today now py_str json_of_result print_results (Some d)
        = (Some d, Done tt))
  /\ (forall (d : gmap string file) (v : pyval),
        d !! ("prices_" ++ today ++ ".json") = Some (Json v) -> truthy v = false ->
        main float_of_str today now py_str json_of_result print_results (Some d)
        = (Some d, Done tt))
  /\ (forall d : gmap string file,
        d !! ("prices_" ++ today ++ ".json") = Some NotJson ->
        main float_of_str today now py_str json_of_result print_results (Some d)
        = (Some d, Fail JSONDecodeError)).
Proof.
  split; [reflexivity|]. split; [|split].
  - intros d Hd. unfold main.
    rewrite (load_no_price_file d Hd). reflexivity.
  - intros d v Hv Ht. unfold main.
    rewrite (load_today d _ Hv). cbn [json_load].
    rewrite Ht. reflexivity.
  - intros d Hv. unfold main.
    rewrite (load_today d _ Hv). reflexivity.
Qed.

Lemma history_name_differs : is_price_file history_file = false.
Proof. reflexivity. Qed.

Lemma has_char_app (c : ascii) (a b : string) :
  has_char c (a ++ b) = has_char c a || has_char c b.
Proof.
  induction a as [|x a IH]; [reflexivity|].
  change (has_char c (String x (a ++ b)) = has_char c (String x a) || has_char c b).
  cbn [has_char]. rewrite IH. apply orb_assoc.
Qed.

Lemma open_w_plain (d : gmap string file) (name : string) (content : file) :
  has_char "000"%char name = false -> has_char "/"%char name = false ->
  open_w (Some d) name content = Done (Some (<[ name := content ]> d)).
Proof. intros H0 H1. unfold open_w. rewrite H0, H1. reflexivity. Qed.

Lemma open_w_daily (d : gmap string file) (day : string) (content : file) :
  has_char "000"%char day = false -> has_char "/"%char day = false ->
  open_w (Some d) ("prices_" ++ day ++ ".json") content
  = Done (Some (<[ "prices_" ++ day ++ ".json" := content ]> d)).
Proof.
  intros H0 H1. apply open_w_plain; rewrite !has_char_app, ?H0, ?H1; reflexivity.
Qed.

Lemma daily_is_not_history (day : string) :
  "prices_" ++ day ++ ".json" <> history_file.
Proof.
  intros E. pose proof (price_file_name_matches day) as Hm.
  rewrite E in Hm. discriminate Hm.
Qed.

(** X18.  After a successful [save_prices] the snapshot is stored under
    [prices_<date>.json]; when its date is today, or it has no date,
    [load_latest_prices] returns exactly that snapshot. *)
Theorem save_then_load_round_trip (price_data d : pyval) (fs fs' : filesystem) :
  save_prices today py_str json_key price_data fs = (fs', Done tt) ->
  py_get price_data "date" (PStr today) = Ok d ->
  fs' ≫= (.!! ("prices_" ++ fstr py_str d ++ ".json")) = Some (Json price_data)
  /\ (fstr py_str d = today -> load_latest_prices today fs' = Done price_data).
Proof.
  unfold save_prices. intros H Hd. rewrite Hd in H.
  destruct (open_w fs _ _) as [fs1|e] eqn:E1; [|discriminate].
  destruct (open_w_inv _ _ _ _ E1) as (d0 & -> & ->).
  destruct (match Some (<[ _ := _ ]> d0) ≫= _ with Some f => json_load f | None => _ end)
    as [history|e]; [|discriminate].
  destruct (setitem json_key history d price_data) as [history'|e]; [|discriminate].
  destruct (open_w _ history_file _) as [fs2|e] eqn:E2; [|discriminate].
  injection H as <-. destruct (open_w_inv _ _ _ _ E2) as (d1 & [= <-] & ->).
  cbn [mbind option_bind].
  assert (Hfile : <[ history_file := Json history' ]>
                    (<[ "prices_" ++ fstr py_str d ++ ".json" := Json price_data ]> d0)
                  !! ("prices_" ++ fstr py_str d ++ ".json") = Some (Json price_data)).
  { rewrite lookup_insert_ne; [apply lookup_insert_eq|].
    intros E. symmetry in E. revert E. apply daily_is_not_history. }
  split; [exact Hfile|]. intros Ht. rewrite Ht in Hfile |- *.
  rewrite (load_today _ _ Hfile). reflexivity.
Qed.

(** On a date without slash or NUL the directory as modelled accepts both
    writes of [save_prices]. *)
Lemma save_prices_on_clean_date (price_data : pyval) (day : string)
    (d0 : gmap string file) (h : gmap string pyval) :
  py_get price_data "date" (PStr today) = Ok (PStr day) ->
  has_char "000"%char day = false -> has_char "/"%char day = false ->
  (d0 !! history_file = Some (Json (PDict h))
   \/ (d0 !! history_file = None /\ h = ∅)) ->
  save_prices today py_str json_key price_data (Some d0)
  = (Some (<[ history_file := Json (PDict (<[ day := price_data ]> h)) ]>
           (<[ "prices_" ++ day ++ ".json" := Json price_data ]> d0)), Done tt).
Proof.
  intros Hd Hnul Hslash Hh. unfold save_prices. rewrite Hd. cbn [fstr].
  rewrite (open_w_daily _ _ _ Hnul Hslash). cbn [mbind option_bind].
  rewrite (lookup_insert_ne _ _ _ _ (daily_is_not_history day)).
  destruct Hh as [-> | [-> ->]]; reflexivity.
Qed.

(** What [save_prices] leaves when it completes. *)
Lemma save_prices_completed (price_data d : pyval) (d0 : gmap string file)
    (fs' : filesystem) :
  py_get price_data "date" (PStr today) = Ok d ->
  save_prices today py_str json_key price_data (Some d0) = (fs', Done tt) ->
  exists history history',
    (d0 !! history_file = Some (Json history)
     \/ (d0 !! history_file = None /\ history = PDict ∅))
    /\ setitem json_key history d price_data = Done history'
    /\ fs' = Some (<[ history_file := Json history' ]>
                   (<[ "prices_" ++ fstr py_str d ++ ".json" := Json price_data ]> d0)).
Proof.
  unfold save_prices. intros Hd H. rewrite Hd in H.
  destruct (open_w (Some d0) _ _) as [fs1|e] eqn:E1; [|discriminate].
  destruct (open_w_inv _ _ _ _ E1) as (d1 & [= <-] & ->).
  cbn [mbind option_bind] in H.
  rewrite (lookup_insert_ne _ _ _ _ (daily_is_not_history (fstr py_str d))) in H.
  destruct (d0 !! history_file) as [f|] eqn:Eh.
  - destruct f as [history|]; cbn [json_load] in H; [|discriminate].
    destruct (setitem json_key history d price_data) as [history'|e] eqn:Es; [|discriminate].
    destruct (open_w _ history_file _) as [fs2|e] eqn:E2; [|discriminate].
    injection H as <-. destruct (open_w_inv _ _ _ _ E2) as (d2 & [= <-] & ->).
    exists history, history'. auto.
  - destruct (setitem json_key (PDict ∅) d price_data) as [history'|e] eqn:Es; [|discriminate].
    destruct (open_w _ history_file _) as [fs2|e] eqn:E2; [|discriminate].
    injection H as <-. destruct (open_w_inv _ _ _ _ E2) as (d2 & [= <-] & ->).
    exists (PDict ∅), history'. auto.
Qed.

(** X19.  When [save_prices] completes on a snapshot dated by a string,
    with a history that is a mapping or absent, the history file holds the
    history with the entry of that date set to the snapshot and every other
    day kept, the daily file holds the snapshot, and no other entry of the
    directory has changed. *)
Theorem save_prices_history (price_data : pyval) (day : string)
    (d0 : gmap string file) (h : gmap string pyval) (fs' : filesystem) :
  py_get price_data "date" (PStr today) = Ok (PStr day) ->
  (d0 !! history_file = Some (Json (PDict h))
   \/ (d0 !! history_file = None /\ h = ∅)) ->
  save_prices today py_str json_key price_data (Some d0) = (fs', Done tt) ->
  (exists h' : gmap string pyval,
      fs' ≫= (.!! history_file) = Some (Json (PDict h'))
      /\ h' !! day = Some price_data
      /\ forall other : string, other <> day -> h' !! other = h !! other)
  /\ fs' ≫= (.!! ("prices_" ++ day ++ ".json")) = Some (Json price_data)
  /\ forall name : string,
       name <> history_file -> name <> "prices_" ++ day ++ ".json" ->
       fs' ≫= (.!! name) = d0 !! name.
Proof.
  intros Hd Hh H.
  destruct (save_prices_completed price_data (PStr day) d0 fs' Hd H)
    as (history & history' & Hhist & Hset & ->).
  assert (history = PDict h) as ->.
  { destruct Hh as [Hh | [Hh ->]], Hhist as [Hhist | [Hhist ->]]; congruence. }
  cbn [setitem] in Hset. injection Hset as <-. cbn [fstr mbind option_bind].
  split; [|split].
  - exists (<[ day := price_data ]> h). split; [apply lookup_insert_eq|].
    split; [apply lookup_insert_eq|].
    intros other Hother. apply lookup_insert_ne. congruence.
  - rewrite lookup_insert_ne; [apply lookup_insert_eq|].
    intros E. symmetry in E. revert E. apply daily_is_not_history.
  - intros name Hn1 Hn2. rewrite !lookup_insert_ne by congruence. reflexivity.
Qed.

(** On such a date the directory as modelled lets [save_prices] reach a
    history that does not parse. *)
Lemma save_prices_corrupt_history (price_data : pyval) (day : string)
    (d0 : gmap string file) :
  py_get price_data "date" (PStr today) = Ok (PStr day) ->
  has_char "000"%char day = false -> has_char "/"%char day = false ->
  d0 !! history_file = Some NotJson ->
  save_prices today py_str json_key price_data (Some d0)
  = (Some (<[ "prices_" ++ day ++ ".json" := Json price_data ]> d0),
     Fail JSONDecodeError).
Proof.
  intros Hd Hnul Hslash Hh. unfold save_prices. rewrite Hd. cbn [fstr].
  rewrite (open_w_daily _ _ _ Hnul Hslash). cbn [mbind option_bind].
  rewrite (lookup_insert_ne _ _ _ _ (daily_is_not_history day)).
  rewrite Hh. reflexivity.
Qed.

(** X20.  When the history file does not parse, [save_prices] does not
    complete; when it raises [JSONDecodeError], the daily file has been
    written before: the directory differs in that entry only, and
    [load_latest_prices] returns the snapshot when it is dated today. *)
Theorem corrupt_history_fails_after_daily_write (price_data d : pyval)
    (d0 : gmap string file) (fs' : filesystem) (out : io Datatypes.unit) :
  d0 !! history_file = Some NotJson ->
  py_get price_data "date" (PStr today) = Ok d ->
  save_prices today py_str json_key price_data (Some d0) = (fs', out) ->
  out <> Done tt
  /\ (out = Fail JSONDecodeError ->
      fs' = Some (<[ "prices_" ++ fstr py_str d ++ ".json" := Json price_data ]> d0)
      /\ (fstr py_str d = today -> load_latest_prices today fs' = Done price_data)).
Proof.
  intros Hh Hd H. split.
  - intros ->.
    destruct (save_prices_completed price_data d d0 fs' Hd H)
      as (history & history' & [Hhist | [Hhist _]] & _); congruence.
  - unfold save_prices in H. rewrite Hd in H.
    destruct (open_w (Some d0) _ _) as [fs1|e] eqn:E1.
    + destruct (open_w_inv _ _ _ _ E1) as (d1 & [= <-] & ->).
      cbn [mbind option_bind] in H.
      rewrite (lookup_insert_ne _ _ _ _ (daily_is_not_history (fstr py_str d))), Hh in H.
      cbn [json_load] in H. injection H as <- <-. intros _. split; [reflexivity|].
      intros Ht. rewrite (load_today _ (Json price_data)); [reflexivity|].
      rewrite <- Ht. apply lookup_insert_eq.
    + injection H as <- <-. intros [= ->]. exfalso. revert E1. unfold open_w.
      destruct (has_char _ _); [discriminate|].
      destruct (has_char _ _); [destruct (d0 !! before_slash _); discriminate | discriminate].
Qed.

End FileProperties.

(** ** Instances of the further properties *)

Lemma first_present_candidate_decides_witness :
  _get_price no_str_float example_calculator "lme_tin" "price_avg" ["tin"]
  = Ok (Some 30000%Q).
Proof.
  etransitivity.
  - apply (first_present_candidate_decides no_str_float example_calculator
             (<[ "tin" := avg (PInt 30000) ]> {[ "tantalum_oxide" := avg (PInt 65) ]})
             "lme_tin" "price_avg" ["tin"] ["lme_tin"] [] "tin").
    + reflexivity.
    + reflexivity.
    + constructor; [vm_compute; reflexivity | constructor].
    + vm_compute. discriminate.
  - vm_compute. reflexivity.
Defined.

Lemma get_price_never_zero_witness :
  _get_price no_str_float example_calculator "tin" "price_avg" [] = Ok (Some 30000%Q)
  /\ ~ (30000 == 0)%Q.
Proof.
  assert (H : _get_price no_str_float example_calculator "tin" "price_avg" []
              = Ok (Some 30000%Q)) by (vm_compute; reflexivity).
  split; [exact H|].
  apply (get_price_never_zero no_str_float example_calculator
           (<[ "tin" := avg (PInt 30000) ]> {[ "tantalum_oxide" := avg (PInt 65) ]})
           "tin" "price_avg" [] 30000%Q).
  - reflexivity.
  - constructor; [vm_compute; discriminate | constructor].
  - exact H.
Defined.

Lemma monazite_source_price_ignores_fallback_witness :
  exists r, calculate_all no_str_float example_now low_price_calculator = Ok r
            /\ price <$> assoc "monazite" (source_prices r) = Some None
            /\ _get_price no_str_float low_price_calculator "monazite_concentrate"
                 "price_avg" ["monazite"; "monazite_concentrate"] = Ok (Some 10%Q).
Proof.
  destruct (calculate_all no_str_float example_now low_price_calculator) as [r|e] eqn:E;
    [|vm_compute in E; discriminate].
  destruct (monazite_source_price_ignores_fallback no_str_float example_now
              low_price_calculator
              (<[ "monazite" := avg (PInt 10) ]>
               (<[ "spodumene" := avg (PInt 10) ]>
                {[ "lithium_carbonate" := avg (PInt 10) ]}))
              10%Q r) as (H1 & H2 & _).
  - reflexivity.
  - vm_compute. reflexivity.
  - vm_compute. reflexivity.
  - exact E.
  - exists r. auto.
Defined.

Lemma ceilings_monotone_in_reference_price_witness :
  le_res (calc_tin_ore no_str_float (quote_calculator "tin" 30000) 70)
         (calc_tin_ore no_str_float (quote_calculator "tin" 31000) 70).
Proof.
  apply (proj1 (ceilings_monotone_in_reference_price no_str_float
                  (quote_calculator "tin" 30000) (quote_calculator "tin" 31000)
                  70%Q 30000%Q 31000%Q 1512%Q
                  ltac:(repeat split) ltac:(reflexivity) ltac:(vm_compute; discriminate)
                  ltac:(vm_compute; discriminate)
                  ltac:(split; vm_compute; discriminate)
                  ltac:(vm_compute; discriminate) ltac:(vm_compute; discriminate)));
    vm_compute; reflexivity.
Defined.


Lemma construction_outcome_witness :
  init example_today PNone = Raise AttributeError
  /\ init example_today null_rate_snapshot = Raise TypeError.
Proof.
  split.
  - apply (proj1 (construction_outcome example_today)). discriminate.
  - pose proof (proj2 (proj2 (construction_outcome example_today))
                  (<[ "exchange_rates" := PDict {[ "usd_cny" := PNone ]} ]>
                   {[ "smm_prices" := PDict ∅ ]} : gmap string pyval)
                  ({[ "usd_cny" := PNone ]} : gmap string pyval)) as H.
    cbv beta in H. specialize (H ltac:(vm_compute; reflexivity)).
    vm_compute in H. vm_compute. exact H.
Defined.

Lemma override_fixes_cny_ngn_witness :
  CNY_NGN example_calculator = PInt 216
  /\ CNY_NGN_SOURCE example_calculator = "Manual Override".
Proof.
  apply (proj1 override_fixes_cny_ngn example_today example_snapshot).
  vm_compute. reflexivity.
Defined.

Lemma strategies_raise_on_non_numeric_rate_witness :
  calc_tin_ore no_str_float string_rate_calculator 70 = Raise TypeError.
Proof.
  apply (proj1 (proj1 (strategies_raise_on_non_numeric_rate no_str_float
                         string_rate_calculator 70%Q 30000%Q
                         ltac:(apply usable_of_pos; reflexivity))
                      ltac:(reflexivity))).
  vm_compute. reflexivity.
Defined.

Lemma string_rate_passes_construction_witness :
  exists c, init example_today (PDict string_rate_document) = Ok c
            /\ USD_NGN c = PStr (str_repeat "7.1" 216).
Proof.
  destruct (string_rate_passes_construction no_str_float example_today
              string_rate_document string_rate_rates "7.1"
              ltac:(vm_compute; reflexivity) ltac:(vm_compute; reflexivity))
    as (c & Hc & Hn & _).
  exists c. auto.
Defined.

Lemma sample_listing :
  listdir sample_directory
  = ["max_purchase_prices_2025-01-14.json"; "price_history.json";
     "prices_2025-01-14.json"; "prices_2025-01-10.json"].
Proof. vm_compute. reflexivity. Qed.

Lemma load_latest_prices_selection_witness :
  load_latest_prices example_today (Some today_directory) = json_load (Json example_snapshot)
  /\ load_latest_prices example_today (Some sample_directory)
     = json_load (Json example_snapshot).
Proof.
  split.
  - apply (proj1 (load_latest_prices_selection example_today today_directory)).
    vm_compute. reflexivity.
  - apply (proj1 (proj2 (load_latest_prices_selection example_today sample_directory))
             ltac:(vm_compute; reflexivity) "prices_2025-01-14.json").
    + vm_compute. reflexivity.
    + vm_compute. reflexivity.
    + intros other Hother Hmatch. apply In_listdir in Hother.
      rewrite sample_listing in Hother.
      destruct Hother as [H | [H | [H | [H | []]]]]; subst other;
        first [discriminate Hmatch | vm_compute; reflexivity].
Defined.

Lemma results_never_become_input_witness :
  save_results sample_py_str sample_json_of_result sample_result (Some sample_directory)
  = Done (Some sample_directory_with_result)
  /\ load_latest_prices example_today (Some sample_directory_with_result)
     = load_latest_prices example_today (Some sample_directory).
Proof.
  assert (H : save_results sample_py_str sample_json_of_result sample_result
                (Some sample_directory) = Done (Some sample_directory_with_result)).
  { unfold save_results. apply open_w_plain; vm_compute; reflexivity. }
  split; [exact H|].
  exact (proj1 (results_never_become_input example_today sample_py_str
                  sample_json_of_result sample_result (Some sample_directory)
                  (Some sample_directory_with_result) H)).
Defined.

Lemma main_idempotent_witness :
  main no_str_float example_today example_now sample_py_str sample_json_of_result
       sample_print_results
       (fst (main no_str_float example_today example_now sample_py_str
                  sample_json_of_result sample_print_results (Some today_directory)))
  = main no_str_float example_today example_now sample_py_str sample_json_of_result
         sample_print_results (Some today_directory)
  /\ snd (main no_str_float example_today example_now sample_py_str
               sample_json_of_result sample_print_results (Some today_directory))
     = Done tt.
Proof.
  split; [|vm_compute; reflexivity].
  destruct (main no_str_float example_today example_now sample_py_str
                 sample_json_of_result sample_print_results (Some today_directory))
    as [fs' out] eqn:E.
  exact (main_idempotent no_str_float example_today example_now sample_py_str
           sample_json_of_result sample_print_results (Some today_directory) fs' out E).
Defined.

Lemma main_changes_only_a_results_file_witness :
  fst (main no_str_float example_today example_now sample_py_str
            sample_json_of_result sample_print_results (Some today_directory))
    ≫= (.!! "prices_2025-01-15.json")
  = Some today_directory ≫= (.!! "prices_2025-01-15.json").
Proof.
  destruct (main no_str_float example_today example_now sample_py_str
                 sample_json_of_result sample_print_results (Some today_directory))
    as [fs' out] eqn:E.
  destruct (main_changes_only_a_results_file no_str_float example_today example_now
              sample_py_str sample_json_of_result sample_print_results
              (Some today_directory) fs' out E) as (H & _).
  exact (H "prices_2025-01-15.json" ltac:(vm_compute; reflexivity)).
Defined.

Lemma main_without_snapshot_witness :
  main no_str_float example_today example_now sample_py_str sample_json_of_result
       sample_print_results
       (Some (<[ "prices_" ++ example_today ++ ".json" := NotJson ]> sample_directory))
  = (Some (<[ "prices_" ++ example_today ++ ".json" := NotJson ]> sample_directory),
     Fail JSONDecodeError).
Proof.
  apply (proj2 (proj2 (proj2 (main_without_snapshot no_str_float example_today
                                example_now sample_py_str sample_json_of_result
                                sample_print_results)))).
  apply lookup_insert_eq.
Defined.

Lemma first_save :
  save_prices example_today sample_py_str sample_json_key empty_snapshot
    (_ensure_data_dir None)
  = (Some first_save_directory, Done tt).
Proof.
  apply (save_prices_on_clean_date example_today sample_py_str sample_json_key
           empty_snapshot "2025-01-15" ∅ ∅).
  - vm_compute. reflexivity.
  - vm_compute. reflexivity.
  - vm_compute. reflexivity.
  - right. split; [apply lookup_empty | reflexivity].
Qed.

Lemma save_then_load_round_trip_witness :
  save_prices example_today sample_py_str sample_json_key empty_snapshot
    (_ensure_data_dir None) = (Some first_save_directory, Done tt)
  /\ load_latest_prices example_today (Some first_save_directory) = Done empty_snapshot.
Proof.
  split; [exact first_save|].
  apply (proj2 (save_then_load_round_trip example_today sample_py_str sample_json_key
                  empty_snapshot (PStr example_today) (_ensure_data_dir None)
                  (Some first_save_directory) first_save
                  ltac:(vm_compute; reflexivity))).
  reflexivity.
Defined.

Lemma second_save :
  save_prices example_today sample_py_str sample_json_key example_snapshot
    (Some today_directory)
  = (Some (<[ history_file
              := Json (PDict (<[ "2025-01-15" := example_snapshot ]>
                              {[ "2025-01-14" := low_price_snapshot ]})) ]>
           (<[ "prices_" ++ "2025-01-15" ++ ".json" := Json example_snapshot ]>
            today_directory)),
     Done tt).
Proof.
  apply (save_prices_on_clean_date example_today sample_py_str sample_json_key
           example_snapshot "2025-01-15" today_directory
           {[ "2025-01-14" := low_price_snapshot ]}).
  - vm_compute. reflexivity.
  - vm_compute. reflexivity.
  - vm_compute. reflexivity.
  - left. unfold today_directory, history_file.
    rewrite lookup_insert_ne by done. apply lookup_insert_eq.
Qed.

Lemma save_prices_history_witness :
  exists fs' h',
    save_prices example_today sample_py_str sample_json_key example_snapshot
      (Some today_directory) = (fs', Done tt)
    /\ fs' ≫= (.!! history_file) = Some (Json (PDict h'))
    /\ h' !! "2025-01-15" = Some example_snapshot
    /\ h' !! "2025-01-14" = Some low_price_snapshot.
Proof.
  eexists.
  destruct (save_prices_history example_today sample_py_str sample_json_key
              example_snapshot "2025-01-15" today_directory
              {[ "2025-01-14" := low_price_snapshot ]} _
              ltac:(vm_compute; reflexivity)
              ltac:(left; unfold today_directory, history_file;
                    rewrite lookup_insert_ne by done; apply lookup_insert_eq)
              second_save) as ((h' & Hfile & Hday & Hother) & _).
  exists h'. split; [exact second_save|]. split; [exact Hfile|]. split; [exact Hday|].
  rewrite (Hother "2025-01-14") by discriminate. apply lookup_singleton_eq.
Defined.

Lemma sample_history_is_corrupt : sample_directory !! history_file = Some NotJson.
Proof.
  unfold sample_directory, history_file.
  rewrite !lookup_insert_ne by done. apply lookup_insert_eq.
Qed.

Lemma save_on_corrupt_history :
  save_prices example_today sample_py_str sample_json_key example_snapshot
    (Some sample_directory)
  = (Some (<[ "prices_" ++ "2025-01-15" ++ ".json" := Json example_snapshot ]>
           sample_directory),
     Fail JSONDecodeError).
Proof.
  apply (save_prices_corrupt_history example_today sample_py_str sample_json_key
           example_snapshot "2025-01-15" sample_directory).
  - vm_compute. reflexivity.
  - vm_compute. reflexivity.
  - vm_compute. reflexivity.
  - exact sample_history_is_corrupt.
Qed.

Lemma corrupt_history_fails_after_daily_write_witness :
  exists fs' : filesystem,
    save_prices example_today sample_py_str sample_json_key example_snapshot
      (Some sample_directory) = (fs', Fail JSONDecodeError)
    /\ load_latest_prices example_today fs' = Done example_snapshot.
Proof.
  eexists. split; [exact save_on_corrupt_history|].
  apply (proj2 (corrupt_history_fails_after_daily_write example_today sample_py_str
                  sample_json_key example_snapshot (PStr "2025-01-15") sample_directory
                  _ (Fail JSONDecodeError)
                  sample_history_is_corrupt
                  ltac:(vm_compute; reflexivity)
                  save_on_corrupt_history)
               ltac:(reflexivity)).
  reflexivity.
Defined.
